(** * tutorials/OnnxTensorflowExport.ipynb: the notebook's code cells

    The notebook has three code cells with content: the conversion cell
    (frozen TensorFlow graph to mnist.onnx), the sanity cell (print the first
    node of the converted graph) and the inference cell (load mnist.onnx, run
    it on ./assets/image.npz, print the label).  Each cell is a straight
    sequence of calls into TensorFlow, onnx-tensorflow, onnx, numpy and the
    Python 2 built-ins.

    The cells are embedded as programs of a small state-and-exception monad
    over the state of the Jupyter kernel and of the machine it runs on: the
    kernel's top-level names, the file system, the table of file objects and
    the standard output.  What the libraries compute is not code of this
    repository: it is a parameter of the development (class [Libs]); what
    the file objects, the print statement and numpy's [reshape] do is written
    out.  Every call a cell makes is recorded, with its arguments and
    outcome, in the trace of the run.

    Taken for granted: the libraries, being a parameter, are there, so that
    an import statement only binds its name; [open] is the built-in, not a
    name the kernel has rebound.  Not modelled: the buffering of file
    objects (what is written is in the file at once, a write that raises has
    written nothing, closing does not raise). *)

From Stdlib Require Import ZArith Lia Ascii.
From Stdlib.Strings Require Import Byte.
From stdpp Require Import base option list strings gmap pretty.

Local Open Scope Z_scope.

Set Warnings "-register-all".

(** ** Exceptions and results *)

(** A Python exception: its class and its message. *)
Record exn := Exn { exn_class : string; exn_msg : string }.

Inductive result (A : Type) : Type :=
| Ok (a : A)
| Raise (e : exn).
Arguments Ok {A} a.
Arguments Raise {A} e.

Definition is_ok {A} (r : result A) : bool :=
  match r with Ok _ => true | Raise _ => false end.

(** ** numpy arrays *)

(** An ndarray: its shape and its elements in row-major order. *)
Record ndarray (T : Type) := NdArray { arr_shape : list Z; arr_data : list T }.
Arguments NdArray {T} arr_shape arr_data.
Arguments arr_shape {T} _.
Arguments arr_data {T} _.

Definition shape_size (shape : list Z) : Z := foldr Z.mul 1 shape.

(** [a.size]: the total number of elements, the product of the shape. *)
Definition arr_size {T} (a : ndarray T) : Z := shape_size (arr_shape a).

(** [a.reshape(shape)] for a shape without the placeholder -1 (the notebook
    passes the literal [[1, 784]]): the same elements under the new shape when
    the sizes agree, ValueError otherwise. *)
Definition np_reshape {T} (a : ndarray T) (shape : list Z) : result (ndarray T) :=
  if bool_decide (Forall (λ d, 0 ≤ d) shape ∧ shape_size shape = arr_size a)
  then Ok (NdArray shape (arr_data a))
  else Raise (Exn "ValueError" "cannot reshape array into the given shape").

(** ** The third-party libraries and the operating system

    Everything the notebook calls that is not written in the notebook.  The
    types are the libraries' opaque objects; the functions are what a call
    returns or raises. *)
Class Libs := {
  GraphDef : Type;        (* tensorflow.GraphDef *)
  ModelProto : Type;      (* onnx.ModelProto *)
  NodeProto : Type;       (* onnx.NodeProto *)
  TensorflowRep : Type;   (* onnx_tf.backend_rep.TensorflowRep *)
  Outputs : Type;         (* what TensorflowRep.run returns *)
  NpzFile : Type;         (* numpy.lib.npyio.NpzFile *)
  scalar : Type;          (* the element type of arrays *)
  lib_GraphDef : GraphDef;
  lib_GraphDef_ParseFromString : GraphDef → list byte → result GraphDef;
  lib_tensorflow_graph_to_onnx_model : GraphDef → string → Z → result ModelProto;
  lib_SerializeToString : ModelProto → result (list byte);
  lib_ModelProto_ParseFromString : list byte → result ModelProto;
  lib_graph_node : ModelProto → list NodeProto;
  lib_NodeProto_str : NodeProto → string;
  lib_prepare : ModelProto → result TensorflowRep;
  lib_np_load : list byte → result (ndarray scalar + NpzFile);
  lib_run : TensorflowRep → ndarray scalar → result Outputs;
  lib_np_argmax : Outputs → result Z;
  os_open_error : string → option exn;
  os_write_error : string → list byte → option exn;
}.

Section Notebook.
Context {L : Libs}.

(** ** Python values *)

Inductive value : Type :=
| VNone
| VInt (z : Z)
| VStr (s : string)
| VBytes (b : list byte)
| VList (l : list value)
| VFile (h : nat)
| VGraphDef (g : GraphDef)
| VModel (m : ModelProto)
| VNode (n : NodeProto)
| VRep (r : TensorflowRep)
| VArray (a : ndarray scalar)
| VNpz (z : NpzFile)
| VOutputs (o : Outputs)
| VModule (name : string)      (* an imported module *)
| VFunction (name : string).   (* an imported function *)

(** Truth value of an object, as the [with] statement tests what [__exit__]
    returned. *)
Definition truthy (v : value) : bool :=
  match v with
  | VNone => false
  | VInt z => negb (z =? 0)
  | VStr s => negb (String.eqb s "")
  | VBytes b => negb (bool_decide (b = []))
  | VList l => match l with [] => false | _ => true end
  | _ => true
  end.

(** [str(v)], as the print statement renders an item. *)
Definition py_str (v : value) : string :=
  match v with
  | VNone => "None"
  | VInt z => pretty z
  | VStr s => s
  | VNode n => lib_NodeProto_str n
  | _ => "<object>"
  end.

(** ** Calls

    One constructor per call the cells make, with the objects passed. *)
Inductive call : Type :=
| GFile (name mode : value)                 (* tf.gfile.GFile(name, mode) *)
| __enter__ (f : value)                     (* f.__enter__() *)
| __exit__ (f : value)                      (* f.__exit__(...) *)
| read (f : value)                          (* f.read() *)
| tf_GraphDef                               (* tf.GraphDef() *)
| ParseFromString (g data : value)          (* g.ParseFromString(data) *)
| tensorflow_graph_to_onnx_model (g output opset : value)
| open (name mode : value)                  (* open(name, mode) *)
| SerializeToString (m : value)             (* m.SerializeToString() *)
| write (f data : value)                    (* f.write(data) *)
| close (f : value)                         (* f.close() *)
| graph_node_getitem (m i : value)          (* m.graph.node[i] *)
| print_item (v : value)                    (* print v, *)
| print_newline                             (* end of a print statement *)
| onnx_load (path : value)                  (* onnx.load(path) *)
| prepare (m : value)                       (* prepare(m) *)
| np_load (path : value)                    (* np.load(path) *)
| reshape (a shape : value)                 (* a.reshape(shape) *)
| run (rep x : value)                       (* rep.run(x) *)
| np_argmax (x : value).                    (* np.argmax(x) *)

(** The objects a call is handed. *)
Definition args_of (c : call) : list value :=
  match c with
  | GFile n m => [n; m]
  | __enter__ f | __exit__ f | read f => [f]
  | tf_GraphDef => []
  | ParseFromString g d => [g; d]
  | tensorflow_graph_to_onnx_model g o v => [g; o; v]
  | open n m => [n; m]
  | SerializeToString m => [m]
  | write f d => [f; d]
  | close f => [f]
  | graph_node_getitem m i => [m; i]
  | print_item v => [v]
  | print_newline => []
  | onnx_load p => [p]
  | prepare m => [m]
  | np_load p => [p]
  | reshape a s => [a; s]
  | run r x => [r; x]
  | np_argmax x => [x]
  end.

(** ** The kernel state *)

(** A file object: the name and mode it was made with, and whether it has
    been closed. *)
Record fobj := FObj { fo_name : string; fo_mode : string; fo_closed : bool }.

Record kernel := Kernel {
  ns : gmap string value;            (* the kernel's top-level names *)
  fs : gmap string (list byte);      (* files by path *)
  files : list fobj;                 (* file objects, by identity *)
  stdout : string;                   (* what has been printed *)
  softspace : bool;                  (* sys.stdout.softspace *)
}.

Definition set_ns (f : gmap string value → gmap string value) (k : kernel) : kernel :=
  Kernel (f (ns k)) (fs k) (files k) (stdout k) (softspace k).
Definition set_fs (f : gmap string (list byte) → gmap string (list byte)) (k : kernel) : kernel :=
  Kernel (ns k) (f (fs k)) (files k) (stdout k) (softspace k).
Definition set_files (f : list fobj → list fobj) (k : kernel) : kernel :=
  Kernel (ns k) (fs k) (f (files k)) (stdout k) (softspace k).
Definition set_out (s : string) (b : bool) (k : kernel) : kernel :=
  Kernel (ns k) (fs k) (files k) s b.

Definition mark_closed (fo : fobj) : fobj := FObj (fo_name fo) (fo_mode fo) true.

(** The file objects that are open. *)
Definition open_files (k : kernel) : list fobj :=
  filter (λ fo, fo_closed fo = false) (files k).

(** ** What each call does *)

Definition type_error {A} : result A :=
  Raise (Exn "TypeError" "argument of the wrong type").

Definition write_mode (mode : string) : bool :=
  String.eqb mode "w" || String.eqb mode "wb".
Definition read_mode (mode : string) : bool :=
  String.eqb mode "r" || String.eqb mode "rb".

(** The integers of a list of Python ints. *)
Fixpoint ints_of (l : list value) : option (list Z) :=
  match l with
  | [] => Some []
  | VInt z :: l' => match ints_of l' with Some zs => Some (z :: zs) | None => None end
  | _ :: _ => None
  end.

(** Python indexing of a sequence: a negative index counts from the end. *)
Definition py_index {A} (l : list A) (i : Z) : option A :=
  let n := Z.of_nat (length l) in
  if bool_decide (0 ≤ i < n) then l !! Z.to_nat i
  else if bool_decide (- n ≤ i < 0) then l !! Z.to_nat (n + i)
  else None.

Definition newline : string := String "010"%char "".

(** Does a printed string leave [softspace] set?  Not when it ends in
    whitespace other than a blank. *)
Definition ends_hard (s : string) : bool :=
  match reverse (String.list_ascii_of_string s) with
  | c :: _ => bool_decide (c = "010"%char ∨ c = "009"%char ∨ c = "013"%char
                           ∨ c = "011"%char ∨ c = "012"%char)
  | [] => false
  end.

(** What printing the item [v] writes: [str(v)], after a blank when
    [softspace] is set. *)
Definition print_text (soft : bool) (v : value) : string :=
  if soft then " " +:+ py_str v else py_str v.

(** [softspace] after the item [v] has been printed. *)
Definition soft_after (v : value) : bool :=
  match v with
  | VStr s => negb (ends_hard s)
  | _ => true
  end.

(** The message [g] after [g.ParseFromString(data)] has returned: filled
    from [data].  (When the call raises the cell is over, and no cell reads
    the message again.) *)
Definition after_ParseFromString (g data : value) : value :=
  match g, data with
  | VGraphDef g0, VBytes d =>
      match lib_GraphDef_ParseFromString g0 d with
      | Ok g' => VGraphDef g'
      | Raise _ => g
      end
  | _, _ => g
  end.

Definition sem (c : call) (k : kernel) : kernel * result value :=
  match c with
  | GFile (VStr name) (VStr mode) =>
      (* the file is opened lazily: making the object checks nothing *)
      (set_files (λ fl, fl ++ [FObj name mode false]) k, Ok (VFile (length (files k))))
  | __enter__ (VFile h) => (k, Ok (VFile h))
  | __exit__ (VFile h) =>
      (set_files (λ fl, alter mark_closed h fl) k, Ok VNone)
  | read (VFile h) =>
      match files k !! h with
      | Some fo =>
          match fs k !! fo_name fo with
          | Some data => (k, Ok (VBytes data))
          | None => (k, Raise (Exn "NotFoundError" (fo_name fo)))
          end
      | None => (k, type_error)
      end
  | tf_GraphDef => (k, Ok (VGraphDef lib_GraphDef))
  | ParseFromString (VGraphDef g) (VBytes data) =>
      (* the call fills the message in place and gives nothing back: what
         the message is afterwards is [after_ParseFromString] *)
      match lib_GraphDef_ParseFromString g data with
      | Ok _ => (k, Ok VNone)
      | Raise e => (k, Raise e)
      end
  | tensorflow_graph_to_onnx_model (VGraphDef g) (VStr output) (VInt opset) =>
      match lib_tensorflow_graph_to_onnx_model g output opset with
      | Ok m => (k, Ok (VModel m))
      | Raise e => (k, Raise e)
      end
  | open (VStr name) (VStr mode) =>
      if write_mode mode then
        match os_open_error name with
        | Some e => (k, Raise e)
        | None =>
            (set_files (λ fl, fl ++ [FObj name mode false])
               (set_fs (λ m, <[name := []]> m) k),
             Ok (VFile (length (files k))))
        end
      else if read_mode mode then
        match fs k !! name with
        | Some _ =>
            (set_files (λ fl, fl ++ [FObj name mode false]) k,
             Ok (VFile (length (files k))))
        | None => (k, Raise (Exn "IOError" name))
        end
      else (k, Raise (Exn "ValueError" "invalid mode"))
  | SerializeToString (VModel m) =>
      match lib_SerializeToString m with
      | Ok b => (k, Ok (VBytes b))
      | Raise e => (k, Raise e)
      end
  | write (VFile h) (VBytes data) =>
      match files k !! h with
      | Some fo =>
          if fo_closed fo then
            (k, Raise (Exn "ValueError" "I/O operation on closed file"))
          else if negb (write_mode (fo_mode fo)) then
            (k, Raise (Exn "IOError" "File not open for writing"))
          else
            match os_write_error (fo_name fo) data with
            | Some e => (k, Raise e)
            | None =>
                (set_fs (λ m, <[fo_name fo := default [] (m !! fo_name fo) ++ data]> m) k,
                 Ok VNone)
            end
      | None => (k, type_error)
      end
  | close (VFile h) =>
      (set_files (λ fl, alter mark_closed h fl) k, Ok VNone)
  | graph_node_getitem (VModel m) (VInt i) =>
      match py_index (lib_graph_node m) i with
      | Some n => (k, Ok (VNode n))
      | None => (k, Raise (Exn "IndexError" "list index out of range"))
      end
  | print_item v =>
      (set_out (stdout k +:+ print_text (softspace k) v) (soft_after v) k, Ok VNone)
  | print_newline =>
      (set_out (stdout k +:+ newline) false k, Ok VNone)
  | onnx_load (VStr path) =>
      match fs k !! path with
      | Some data =>
          match lib_ModelProto_ParseFromString data with
          | Ok m => (k, Ok (VModel m))
          | Raise e => (k, Raise e)
          end
      | None => (k, Raise (Exn "IOError" path))
      end
  | prepare (VModel m) =>
      match lib_prepare m with
      | Ok r => (k, Ok (VRep r))
      | Raise e => (k, Raise e)
      end
  | np_load (VStr path) =>
      match fs k !! path with
      | Some data =>
          match lib_np_load data with
          | Ok (inl a) => (k, Ok (VArray a))
          | Ok (inr z) =>
              (* an NpzFile keeps the archive open until it is closed *)
              (set_files (λ fl, fl ++ [FObj path "rb" false]) k, Ok (VNpz z))
          | Raise e => (k, Raise e)
          end
      | None => (k, Raise (Exn "IOError" path))
      end
  | reshape (VArray a) shape =>
      match shape with
      | VList l =>
          match ints_of l with
          | Some dims =>
              match np_reshape a dims with
              | Ok a' => (k, Ok (VArray a'))
              | Raise e => (k, Raise e)
              end
          | None => (k, type_error)
          end
      | _ => (k, type_error)
      end
  | reshape _ _ =>
      (* only arrays have the method: an NpzFile, for one, does not *)
      (k, Raise (Exn "AttributeError" "object has no attribute 'reshape'"))
  | run (VRep r) (VArray a) =>
      match lib_run r a with
      | Ok o => (k, Ok (VOutputs o))
      | Raise e => (k, Raise e)
      end
  | np_argmax (VOutputs o) =>
      match lib_np_argmax o with
      | Ok z => (k, Ok (VInt z))
      | Raise e => (k, Raise e)
      end
  | _ => (k, type_error)
  end.

(** ** Running code: state, exceptions and the trace of calls *)

Definition event : Type := call * result value.

Record outcome (A : Type) := Outcome {
  trace : list event;     (* the calls made, in order, with what they gave *)
  final : kernel;         (* the state the run leaves, also when it raises *)
  res : result A;
}.
Arguments Outcome {A} trace final res.
Arguments trace {A} _.
Arguments final {A} _.
Arguments res {A} _.

Definition py (A : Type) : Type := kernel → outcome A.

#[export] Instance py_ret : MRet py := λ A a k, Outcome [] k (Ok a).

#[export] Instance py_bind : MBind py := λ A B f m k,
  match m k with
  | Outcome t1 k1 (Ok a) =>
      match f a k1 with
      | Outcome t2 k2 r => Outcome (t1 ++ t2) k2 r
      end
  | Outcome t1 k1 (Raise e) => Outcome t1 k1 (Raise e)
  end.

(** Make a call: the state changes as [sem] says and the call is recorded. *)
Definition invoke (c : call) : py value := λ k,
  match sem c k with
  | (k', r) => Outcome [(c, r)] k' r
  end.

(** Read a name: NameError when it is not bound. *)
Definition var (x : string) : py value := λ k,
  match ns k !! x with
  | Some v => Outcome [] k (Ok v)
  | None => Outcome [] k (Raise (Exn "NameError" x))
  end.

(** [x = v] at the top level of a cell binds [x] in the kernel's names. *)
Definition assign (x : string) (v : value) : py () := λ k,
  Outcome [] (set_ns (λ m, <[x := v]> m) k) (Ok ()).

(** An import statement: the name is bound to the module or function. *)
Definition import_ (x : string) (v : value) : py () := assign x v.

(** After a method has changed in place the object [x] is bound to: the
    name refers to the object as the call left it, [v].  (No other name of
    the notebook refers to the same object.) *)
Definition mutated (x : string) (v : value) : py () := assign x v.

(** The calls [t] came first, then the run [o]. *)
Definition prepend {A} (t : list event) (o : outcome A) : outcome A :=
  Outcome (t ++ trace o) (final o) (res o).

(** Leaving the body of a [with] statement whose run was [o]: [__exit__]
    runs whether the body ended normally or raised; an exception of the body
    goes on unless [__exit__] returned a true value. *)
Definition leave (mgr : value) (o : outcome ()) : outcome () :=
  match invoke (__exit__ mgr) (final o) with
  | Outcome t3 k3 r3 =>
      Outcome (trace o ++ t3) k3
        match r3, res o with
        | Raise e', _ => Raise e'
        | Ok _, Ok _ => Ok ()
        | Ok v, Raise e => if truthy v then Ok () else Raise e
        end
  end.

(** [with expr as x: body] *)
Definition with_ (expr : py value) (x : string) (body : py ()) : py () := λ k,
  match (mgr ← expr; v ← invoke (__enter__ mgr); assign x v;; mret mgr) k with
  | Outcome t1 k1 (Ok mgr) => prepend t1 (leave mgr (body k1))
  | Outcome t1 k1 (Raise e) => Outcome t1 k1 (Raise e)
  end.

(** ** The cells *)

(** import tensorflow as tf
    from onnx_tf.frontend import tensorflow_graph_to_onnx_model

    with tf.gfile.GFile("frozen_graph.pb", "rb") as f:
        graph_def = tf.GraphDef()
        graph_def.ParseFromString(f.read())
        onnx_model = tensorflow_graph_to_onnx_model(graph_def,
                                         "fc2/add",
                                         opset=6)

        file = open("mnist.onnx", "wb")
        file.write(onnx_model.SerializeToString())
        file.close() *)
Definition conversion_cell : py () :=
  import_ "tf" (VModule "tensorflow");;
  import_ "tensorflow_graph_to_onnx_model"
    (VFunction "onnx_tf.frontend.tensorflow_graph_to_onnx_model");;
  with_ (invoke (GFile (VStr "frozen_graph.pb") (VStr "rb"))) "f" (
    g0 ← invoke tf_GraphDef; assign "graph_def" g0;;
    g ← var "graph_def"; f ← var "f"; data ← invoke (read f);
    invoke (ParseFromString g data);;
    mutated "graph_def" (after_ParseFromString g data);;
    g ← var "graph_def";
    m ← invoke (tensorflow_graph_to_onnx_model g (VStr "fc2/add") (VInt 6));
    assign "onnx_model" m;;
    fo ← invoke (open (VStr "mnist.onnx") (VStr "wb")); assign "file" fo;;
    fo ← var "file"; m ← var "onnx_model"; s ← invoke (SerializeToString m);
    invoke (write fo s);;
    fo ← var "file"; invoke (close fo);;
    mret ()).

(** print(onnx_model.graph.node[0]) *)
Definition sanity_cell : py () :=
  m ← var "onnx_model"; n ← invoke (graph_node_getitem m (VInt 0));
  invoke (print_item n);;
  invoke print_newline;;
  mret ().

(** import onnx
    import numpy as np
    from onnx_tf.backend import prepare

    model = onnx.load('mnist.onnx')
    tf_rep = prepare(model)

    img = np.load("./assets/image.npz")
    output = tf_rep.run(img.reshape([1, 784]))
    print "The digit is classified as ", np.argmax(output) *)
Definition inference_cell : py () :=
  import_ "onnx" (VModule "onnx");;
  import_ "np" (VModule "numpy");;
  import_ "prepare" (VFunction "onnx_tf.backend.prepare");;
  m ← invoke (onnx_load (VStr "mnist.onnx")); assign "model" m;;
  m ← var "model"; r ← invoke (prepare m); assign "tf_rep" r;;
  a ← invoke (np_load (VStr "./assets/image.npz")); assign "img" a;;
  r ← var "tf_rep"; a ← var "img";
  x ← invoke (reshape a (VList [VInt 1; VInt 784]));
  o ← invoke (run r x); assign "output" o;;
  invoke (print_item (VStr "The digit is classified as "));;
  o ← var "output"; l ← invoke (np_argmax o);
  invoke (print_item l);;
  invoke print_newline;;
  mret ().

(** The code cells, in the order of the notebook. *)
Definition cells : list (py ()) := [conversion_cell; sanity_cell; inference_cell].

(** ** Vocabulary for the properties of a run *)

(** The name under which the source makes a call. *)
Definition name_of (c : call) : string :=
  match c with
  | GFile _ _ => "tf.gfile.GFile"
  | __enter__ _ => "__enter__"
  | __exit__ _ => "__exit__"
  | read _ => "read"
  | tf_GraphDef => "tf.GraphDef"
  | ParseFromString _ _ => "ParseFromString"
  | tensorflow_graph_to_onnx_model _ _ _ => "tensorflow_graph_to_onnx_model"
  | open _ _ => "open"
  | SerializeToString _ => "SerializeToString"
  | write _ _ => "write"
  | close _ => "close"
  | graph_node_getitem _ _ => "graph.node[]"
  | print_item _ => "print"
  | print_newline => "print (newline)"
  | onnx_load _ => "onnx.load"
  | prepare _ => "prepare"
  | np_load _ => "np.load"
  | reshape _ _ => "reshape"
  | run _ _ => "run"
  | np_argmax _ => "np.argmax"
  end.

(** The calls of a trace made under a given name. *)
Definition calls_named (n : string) (t : list event) : list call :=
  filter (λ c, name_of c = n) (t.*1).

(** The [__exit__] of a [with] statement, which returns None. *)
Definition is_exit (ev : event) : Prop := ∃ f, ev = (__exit__ f, Ok VNone).

(** The first call of a trace that raised: the exception, and the calls
    made after it. *)
Fixpoint first_failure (t : list event) : option (exn * list event) :=
  match t with
  | [] => None
  | (_, Raise e) :: post => Some (e, post)
  | (_, Ok _) :: t' => first_failure t'
  end.

(** A run lets failures through: when a call raised, the run ends with that
    exception and the only calls after it are the [__exit__] of the enclosing
    [with]; when none raised, the run ends normally. *)
Definition propagates (o : outcome ()) : Prop :=
  match first_failure (trace o) with
  | Some (e, post) => res o = Raise e ∧ Forall is_exit post
  | None => res o = Ok ()
  end.

(** A trace follows a script: the calls are those of the script, in its
    order, up to the first one that raises; after that one only the
    [__exit__] of the enclosing [with] is made. *)
Fixpoint follows (script : list string) (t : list event) : Prop :=
  match t, script with
  | [], _ => True
  | (c, r) :: t', n :: script' =>
      name_of c = n ∧
      match r with
      | Ok _ => follows script' t'
      | Raise _ => Forall is_exit t'
      end
  | _ :: _, [] => False
  end.

Definition conversion_script : list string :=
  ["tf.gfile.GFile"; "__enter__"; "tf.GraphDef"; "read"; "ParseFromString";
   "tensorflow_graph_to_onnx_model"; "open"; "SerializeToString"; "write";
   "close"; "__exit__"].

Definition sanity_script : list string :=
  ["graph.node[]"; "print"; "print (newline)"].

Definition inference_script : list string :=
  ["onnx.load"; "prepare"; "np.load"; "reshape"; "run"; "print"; "np.argmax";
   "print"; "print (newline)"].

(** The names the conversion cell and the inference cell bind, by an
    import, a [with] or an assignment.  (The sanity cell binds none.) *)
Definition conversion_binds : list string :=
  ["tf"; "tensorflow_graph_to_onnx_model"; "f"; "graph_def"; "onnx_model"; "file"].

Definition inference_binds : list string :=
  ["onnx"; "np"; "prepare"; "model"; "tf_rep"; "img"; "output"].

(** What the source shows of a cell: its code, the names it reads without
    having bound them, the names it binds, and the names of its calls in the
    order of the source. *)
Record listing := Listing {
  code : py ();
  reads : list string;
  binds : list string;
  calls : list string;
}.

Definition notebook : list listing :=
  [Listing conversion_cell [] conversion_binds conversion_script;
   Listing sanity_cell ["onnx_model"] [] sanity_script;
   Listing inference_cell [] inference_binds inference_script].

(** The literals of the cells' source. *)
Definition literals : list value :=
  [VStr "frozen_graph.pb"; VStr "rb"; VStr "fc2/add"; VInt 6;
   VStr "mnist.onnx"; VStr "wb"; VInt 0; VStr "./assets/image.npz";
   VList [VInt 1; VInt 784]; VStr "The digit is classified as "].

(** The object a call fills in place, as the call leaves it. *)
Definition filled_in_place (c : call) : option value :=
  match c with
  | ParseFromString g data => Some (after_ParseFromString g data)
  | _ => None
  end.

(** Every object handed to a call of the trace is one of [known], what an
    earlier call of the trace returned, or the object an earlier call that
    returned has filled in place. *)
Fixpoint provenance (known : value → Prop) (t : list event) : Prop :=
  match t with
  | [] => True
  | (c, r) :: t' =>
      Forall known (args_of c)
      ∧ provenance
          (λ v, known v ∨ r = Ok v
                ∨ (is_ok r = true ∧ filled_in_place c = Some v)) t'
  end.

(** What a cell can pass on without having got it from a call: a literal of
    the source, or the object that one of the names it reads was bound to
    when it started. *)
Definition given (read : list string) (k : kernel) (v : value) : Prop :=
  v ∈ literals ∨ ∃ x, x ∈ read ∧ ns k !! x = Some v.

(** A run from [k] changes no file but mnist.onnx and no name but those of
    [bound]; the file objects there were are as they were, what had been
    printed is still there, and [softspace] is as it was unless something
    was printed. *)
Definition frame (bound : list string) (k : kernel) (o : outcome ()) : Prop :=
  (∀ p, p ≠ "mnist.onnx" → fs (final o) !! p = fs k !! p)
  ∧ (∀ x, x ∉ bound → ns (final o) !! x = ns k !! x)
  ∧ (∀ i fo, files k !! i = Some fo → files (final o) !! i = Some fo)
  ∧ (∃ s, stdout (final o) = stdout k +:+ s)
  ∧ (stdout (final o) = stdout k → softspace (final o) = softspace k).

(** A run handles nothing and checks nothing itself.  When a call raised,
    the run ends with that exception, and the only calls after it are the
    [__exit__] of the enclosing [with]: nothing is caught, retried or made
    up for.  When no call raised, the run ends normally: the one exception
    is the NameError of a run that made no call at all because one of the
    names of [read] was not bound. *)
Definition no_handling (read : list string) (k : kernel) (o : outcome ()) : Prop :=
  match first_failure (trace o) with
  | Some (e, post) => res o = Raise e ∧ Forall is_exit post
  | None =>
      res o = Ok ()
      ∨ ∃ x, x ∈ read ∧ trace o = [] ∧ ns k !! x = None
          ∧ res o = Raise (Exn "NameError" x)
  end.

(** What [run] is handed is an array that [np.load] returned, under the
    shape [[1, 784]]. *)
Definition run_gets_reshaped (t : list event) : Prop :=
  ∀ rep x r, (run rep x, r) ∈ t →
    ∃ p a, (np_load p, Ok (VArray a)) ∈ t
      ∧ x = VArray (NdArray [1; 784] (arr_data a)).

(** The reading of "nothing but variables is kept between calls": a run
    leaves the files as they were. *)
Definition keeps_only_variables (k k' : kernel) : Prop := fs k' = fs k.

(** The reading of "the input tensor is handed over unmodified": what [run]
    receives is the object [np.load] returned. *)
Definition handed_unmodified (t : list event) : Prop :=
  ∀ p a rep x r, (np_load p, Ok a) ∈ t → (run rep x, r) ∈ t → x = a.

(** The state [k] with the files of [k0]. *)
Definition with_files_of (k0 k : kernel) : kernel := set_fs (λ _, fs k0) k.

End Notebook.

Arguments Outcome {L A} trace final res.
Arguments trace {L A} _.
Arguments final {L A} _.
Arguments res {L A} _.

(** ** The freezing command of the notebook's text

    bazel-bin/tensorflow/python/tools/freeze_graph with its flags, as the
    Graph Freezing paragraph gives it. *)
Definition freeze_graph_command : list string :=
  ["bazel-bin/tensorflow/python/tools/freeze_graph";
   "--input_graph=/home/mnist-tf/graph.proto";
   "--input_checkpoint=/home/mnist-tf/ckpt/model.ckpt";
   "--output_graph=/tmp/frozen_graph.pb";
   "--output_node_names=fc2/add";
   "--input_binary=True"].

(** [s] without the prefix [p], when it has it. *)
Fixpoint strip_prefix (p s : string) : option string :=
  match p, s with
  | EmptyString, _ => Some s
  | String a p', String b s' => if Ascii.eqb a b then strip_prefix p' s' else None
  | String _ _, EmptyString => None
  end.

(** The value of the flag [--name=value] on a command line. *)
Fixpoint flag_value (name : string) (argv : list string) : option string :=
  match argv with
  | [] => None
  | a :: argv' =>
      match strip_prefix ("--" +:+ name +:+ "=") a with
      | Some v => Some v
      | None => flag_value name argv'
      end
  end.

(** ** The outputs the notebook records *)

Definition dquote : string := String "034"%char "".

(** The text of the first node in the stream output stored with the sanity
    cell: two inputs, an output and the operator type. *)
Definition recorded_first_node : string :=
  "input: " +:+ dquote +:+ "Placeholder" +:+ dquote +:+ newline
  +:+ "input: " +:+ dquote +:+ "reshape/Reshape/shape" +:+ dquote +:+ newline
  +:+ "output: " +:+ dquote +:+ "reshape/Reshape" +:+ dquote +:+ newline
  +:+ "op_type: " +:+ dquote +:+ "Reshape" +:+ dquote +:+ newline.

(** The stream output stored with the sanity cell. *)
Definition recorded_sanity_stdout : string := recorded_first_node +:+ newline.

(** The stream output stored with the inference cell. *)
Definition recorded_inference_stdout : string :=
  "The digit is classified as  7" +:+ newline.

(** ** A small instance

    Libraries small enough to run the cells on: graphs and models are byte
    strings which serialization and parsing leave as they are, an array file
    holds the elements of a one-dimensional array, and writing fails with
    [werr] when that is an exception. *)
Definition sample_libs (werr : option exn) : Libs := {|
  GraphDef := list byte;
  ModelProto := list byte;
  NodeProto := string;
  TensorflowRep := list byte;
  Outputs := Z;
  NpzFile := ();
  scalar := byte;
  lib_GraphDef := [];
  lib_GraphDef_ParseFromString := λ _ data,
    match data with
    | [] => Raise (Exn "DecodeError" "Error parsing message")
    | _ => Ok data
    end;
  lib_tensorflow_graph_to_onnx_model := λ g output _,
    if String.eqb output "fc2/add" then Ok g
    else Raise (Exn "ValueError" output);
  lib_SerializeToString := λ m, Ok m;
  lib_ModelProto_ParseFromString := λ b, Ok b;
  lib_graph_node := λ _, [recorded_first_node];
  lib_NodeProto_str := λ n, n;
  lib_prepare := λ m, Ok m;
  lib_np_load := λ b, Ok (inl (NdArray [Z.of_nat (length b)] b));
  lib_run := λ _ _, Ok 7;
  lib_np_argmax := λ o, Ok o;
  os_open_error := λ _, None;
  os_write_error := λ _ _, werr;
|}.

Definition sample : Libs := sample_libs None.

(** The same libraries on a machine whose disk is full. *)
Definition disk_full : Libs :=
  sample_libs (Some (Exn "IOError" "[Errno 28] No space left on device")).

(** A fresh kernel in a directory holding a frozen graph and an image of 784
    elements. *)
Definition fresh_kernel {L : Libs} : kernel :=
  Kernel ∅
    (<["./assets/image.npz" := replicate 784 "000"%byte]>
       {["frozen_graph.pb" := ["010"; "003"]%byte]})
    [] "" false.

(** The kernel after the conversion cell has run in [fresh_kernel]. *)
Definition converted_kernel : kernel (L := sample) :=
  final (conversion_cell fresh_kernel).

(** A fresh kernel in an empty directory. *)
Definition empty_kernel {L : Libs} : kernel := Kernel ∅ ∅ [] "" false.

(** A fresh kernel whose image has 4 elements. *)
Definition small_image_kernel {L : Libs} : kernel :=
  Kernel ∅
    (<["./assets/image.npz" := replicate 4 "000"%byte]>
       {["mnist.onnx" := ["010"; "003"]%byte]})
    [] "" false.

(** The sample libraries with another [np.load] and another [np.argmax]:
    to run the inference cell on an image file that is an archive, or with
    a backend output [np.argmax] refuses. *)
Definition sample_with (load : list byte → result (ndarray byte + ()))
    (argmax : Z → result Z) : Libs := {|
  GraphDef := list byte;
  ModelProto := list byte;
  NodeProto := string;
  TensorflowRep := list byte;
  Outputs := Z;
  NpzFile := ();
  scalar := byte;
  lib_GraphDef := [];
  lib_GraphDef_ParseFromString := λ _ data,
    match data with
    | [] => Raise (Exn "DecodeError" "Error parsing message")
    | _ => Ok data
    end;
  lib_tensorflow_graph_to_onnx_model := λ g output _,
    if String.eqb output "fc2/add" then Ok g
    else Raise (Exn "ValueError" output);
  lib_SerializeToString := λ m, Ok m;
  lib_ModelProto_ParseFromString := λ b, Ok b;
  lib_graph_node := λ _, [recorded_first_node];
  lib_NodeProto_str := λ n, n;
  lib_prepare := λ m, Ok m;
  lib_np_load := load;
  lib_run := λ _ _, Ok 7;
  lib_np_argmax := argmax;
  os_open_error := λ _, None;
  os_write_error := λ _ _, None;
|}.

(** [np.load] gives an NpzFile, as it does for a zip archive. *)
Definition archive_libs : Libs := sample_with (λ _, Ok (inr ())) (λ o, Ok o).

(** [np.argmax] raises. *)
Definition no_argmax_libs : Libs :=
  sample_with (λ b, Ok (inl (NdArray [Z.of_nat (length b)] b)))
    (λ _, Raise (Exn "ValueError" "attempt to get argmax of an empty sequence")).

(** The sample libraries with a model that cannot be serialized. *)
Definition no_serialize_libs : Libs := {|
  GraphDef := list byte;
  ModelProto := list byte;
  NodeProto := string;
  TensorflowRep := list byte;
  Outputs := Z;
  NpzFile := ();
  scalar := byte;
  lib_GraphDef := [];
  lib_GraphDef_ParseFromString := λ _ data, Ok data;
  lib_tensorflow_graph_to_onnx_model := λ g _ _, Ok g;
  lib_SerializeToString := λ _,
    Raise (Exn "EncodeError" "Message is missing required fields");
  lib_ModelProto_ParseFromString := λ b, Ok b;
  lib_graph_node := λ _, [recorded_first_node];
  lib_NodeProto_str := λ n, n;
  lib_prepare := λ m, Ok m;
  lib_np_load := λ b, Ok (inl (NdArray [Z.of_nat (length b)] b));
  lib_run := λ _ _, Ok 7;
  lib_np_argmax := λ o, Ok o;
  os_open_error := λ _, None;
  os_write_error := λ _ _, None;
|}.

(** A fresh kernel in a directory holding a frozen graph and the model of
    an earlier export. *)
Definition refrozen_kernel {L : Libs} : kernel :=
  Kernel ∅
    (<["mnist.onnx" := replicate 4 "001"%byte]>
       {["frozen_graph.pb" := ["010"; "003"]%byte]})
    [] "" false.

(** A kernel in a directory holding a model and an image of 784 elements. *)
Definition exported_kernel {L : Libs} : kernel :=
  Kernel ∅
    (<["./assets/image.npz" := replicate 784 "000"%byte]>
       {["mnist.onnx" := ["010"; "003"]%byte]})
    [] "" false.

(** ** The snippet of the training script

    The notebook's text quotes, from the training script, the lines that
    write the graph definition:

    with open("graph.proto", "wb") as file:
        graph = tf.get_default_graph().as_graph_def(add_shapes=True)
        file.write(graph.SerializeToString())

    The two TensorFlow operations are not among those of the cells; they are
    parameters here: [as_graph_def add_shapes] for
    [tf.get_default_graph().as_graph_def(add_shapes=...)] and
    [GraphDef_SerializeToString] for the serialization of a graph
    definition.  They do not touch the kernel state and are not recorded in
    the trace. *)
Section Training.
Context {L : Libs}.
Context (as_graph_def : bool → result GraphDef).
Context (GraphDef_SerializeToString : GraphDef → result (list byte)).

(** A library operation outside [call]: its result, the state as it was. *)
Definition lib_step (r : result value) : py value := λ k, Outcome [] k r.

Definition training_snippet : py () :=
  with_ (invoke (open (VStr "graph.proto") (VStr "wb"))) "file" (
    g ← lib_step (match as_graph_def true with
                  | Ok g => Ok (VGraphDef g)
                  | Raise e => Raise e
                  end);
    assign "graph" g;;
    fo ← var "file"; g ← var "graph";
    s ← lib_step (match g with
                  | VGraphDef g =>
                      match GraphDef_SerializeToString g with
                      | Ok b => Ok (VBytes b)
                      | Raise e => Raise e
                      end
                  | _ => type_error
                  end);
    invoke (write fo s);;
    mret ()).

End Training.

(** * Properties *)

Section Properties.
Context {L : Libs}.

(** ** Running a cell step by step *)

Lemma run_bind_invoke {B} c (f : value → py B) k :
  (invoke c ≫= f) k =
  match sem c k with
  | (k', Ok v) => prepend [(c, Ok v)] (f v k')
  | (k', Raise e) => Outcome [(c, Raise e)] k' (Raise e)
  end.
Proof.
  unfold mbind, py_bind, invoke, prepend.
  destruct (sem c k) as [k' [v|e]]; [|done]. by destruct (f v k').
Qed.

Lemma run_bind_var {B} x (f : value → py B) k v :
  ns k !! x = Some v → (var x ≫= f) k = f v k.
Proof.
  intros H. unfold mbind, py_bind, var. rewrite H. by destruct (f v k).
Qed.

Lemma run_bind_var_unbound {B} x (f : value → py B) k :
  ns k !! x = None → (var x ≫= f) k = Outcome [] k (Raise (Exn "NameError" x)).
Proof. intros H. unfold mbind, py_bind, var. by rewrite H. Qed.

Lemma run_bind_assign {B} x v (f : () → py B) k :
  (assign x v ≫= f) k = f () (set_ns (λ m, <[x := v]> m) k).
Proof. unfold mbind, py_bind, assign. by destruct (f _ _). Qed.

Lemma run_with c x body k :
  with_ (invoke c) x body k =
  match sem c k with
  | (k1, Ok mgr) =>
      match sem (__enter__ mgr) k1 with
      | (k2, Ok v) =>
          prepend [(c, Ok mgr); (__enter__ mgr, Ok v)]
            (leave mgr (body (set_ns (λ m, <[x := v]> m) k2)))
      | (k2, Raise e) =>
          Outcome [(c, Ok mgr); (__enter__ mgr, Raise e)] k2 (Raise e)
      end
  | (k1, Raise e) => Outcome [(c, Raise e)] k1 (Raise e)
  end.
Proof.
  unfold with_. rewrite run_bind_invoke.
  destruct (sem c k) as [k1 [mgr|e]]; [|done].
  rewrite run_bind_invoke.
  destruct (sem (__enter__ mgr) k1) as [k2 [v|e]]; [|done].
  by rewrite run_bind_assign.
Qed.

Lemma string_app_cons a (s1 s2 : string) : String a s1 +:+ s2 = String a (s1 +:+ s2).
Proof. reflexivity. Qed.

Lemma string_app_nil_r (s : string) : s +:+ "" = s.
Proof. induction s as [|a s IH]; [done|]. by rewrite string_app_cons, IH. Qed.

Lemma string_app_assoc (s1 s2 s3 : string) : (s1 +:+ s2) +:+ s3 = s1 +:+ (s2 +:+ s3).
Proof. induction s1 as [|a s1 IH]; [done|]. by rewrite !string_app_cons, IH. Qed.

Lemma string_app_length (s1 s2 : string) :
  String.length (s1 +:+ s2) = (String.length s1 + String.length s2)%nat.
Proof.
  induction s1 as [|a s1 IH]; [done|]. rewrite string_app_cons. cbn. by rewrite IH.
Qed.

Lemma string_app_inv_tail (s1 s2 s : string) : s1 +:+ s = s2 +:+ s → s1 = s2.
Proof.
  revert s2. induction s1 as [|a s1 IH]; intros [|b s2] H.
  - done.
  - apply (f_equal String.length) in H. change ("" +:+ s) with s in H.
    rewrite string_app_cons in H. cbn in H. rewrite string_app_length in H. lia.
  - apply (f_equal String.length) in H. change ("" +:+ s) with s in H.
    rewrite string_app_cons in H. cbn in H. rewrite string_app_length in H. lia.
  - rewrite !string_app_cons in H. injection H as -> H. by rewrite (IH _ H).
Qed.

Lemma write_mode_wb : write_mode "wb" = true.
Proof. reflexivity. Qed.

(** Reshaping to [[1, 784]] asks for 784 elements. *)
Lemma np_reshape_1_784 {T} (a : ndarray T) :
  np_reshape a [1; 784] =
  if bool_decide (arr_size a = 784) then Ok (NdArray [1; 784] (arr_data a))
  else Raise (Exn "ValueError" "cannot reshape array into the given shape").
Proof.
  unfold np_reshape. change (shape_size [1; 784]) with 784.
  erewrite bool_decide_ext; [done|].
  split; [by intros [_ ->]|]. intros ->. split; [|done].
  repeat constructor; lia.
Qed.

End Properties.

(** Project the state and the outcome of a run. *)
Ltac kernel_simpl :=
  cbn [sem ns fs files stdout softspace set_ns set_fs set_files set_out
       fo_name fo_mode fo_closed trace final res prepend app mutated import_
       after_ParseFromString negb ints_of mret py_ret type_error].

(** A name just assigned, or assigned before other names were. *)
Ltac lookup_ns :=
  kernel_simpl; repeat (rewrite lookup_insert_ne by done); apply lookup_insert_eq.

(** Run the statements of a cell up to the next call whose outcome is not
    determined. *)
Ltac exec :=
  repeat first
    [ rewrite run_bind_assign
    | erewrite run_bind_var by lookup_ns
    | rewrite run_bind_invoke; kernel_simpl
    | rewrite write_mode_wb; kernel_simpl
    | rewrite np_reshape_1_784
    | rewrite list_lookup_middle by done; kernel_simpl ].

(** What a library function gives is known from an earlier call of it. *)
Ltac reuse :=
  match goal with
  | H : ?x = _ |- context [match ?x with _ => _ end] => rewrite H
  end.

(** Split on what an undetermined call gives: the innermost scrutinee. *)
Ltac case_scrutinee :=
  match goal with
  | |- context [match ?x with _ => _ end] =>
      lazymatch x with
      | context [match _ with _ => _ end] => fail
      | _ => destruct x eqn:?
      end
  end.

(** Compute the outcome at the end of a path. *)
Ltac finish :=
  cbn [leave invoke sem prepend trace final res app truthy mret py_ret
       ns fs files stdout softspace set_ns set_fs set_files set_out].

(** Membership in a list that is written out. *)
Ltac elem_here :=
  repeat first [apply list_elem_of_here | apply list_elem_of_further].

(** An object handed to a call: given to the cell, returned earlier, or
    filled in place earlier. *)
Ltac solve_filled :=
  split; [reflexivity|]; cbn [filled_in_place after_ParseFromString];
  match goal with H : ?x = _ |- context [?x] => rewrite H end; reflexivity.

Ltac solve_known :=
  lazymatch goal with
  | |- _ ∨ _ = _ ∨ _ =>
      first [right; left; reflexivity | right; right; solve_filled
            | left; solve_known]
  | |- given _ _ _ =>
      first [ left; unfold literals; solve [elem_here]
            | right; eexists; split; [solve [elem_here] | eassumption] ]
  end.

Ltac solve_provenance :=
  cbn [provenance args_of];
  repeat match goal with
  | |- _ ∧ _ => split
  | |- Forall _ (_ :: _) => apply Forall_cons_2
  | |- Forall _ [] => apply Forall_nil_2
  | |- True => exact I
  end; solve_known.

Ltac solve_follows :=
  cbn [follows]; repeat split; try reflexivity; try (repeat constructor; by eexists).

(** A name or a path other than those a cell writes. *)
Ltac solve_frame :=
  kernel_simpl; rewrite ?lookup_insert_ne by congruence; reflexivity.

(** A file object that was there before the run. *)
Ltac solve_files_frame :=
  let Hi := fresh in let Hlt := fresh in
  intros ? ? Hi; pose proof (lookup_lt_Some _ _ _ Hi) as Hlt; kernel_simpl;
  rewrite ?list_lookup_alter_ne by (rewrite ?length_app; cbn; lia);
  rewrite <-?app_assoc; first [assumption | by apply lookup_app_l_Some].

(** What has been printed extends what had been. *)
Ltac solve_out_frame :=
  kernel_simpl; rewrite ?string_app_assoc;
  first [by eexists | exists ""; by rewrite string_app_nil_r].

(** Nothing printed and [softspace] as it was, or something printed. *)
Ltac solve_soft_frame :=
  kernel_simpl;
  first [ intros _; reflexivity
        | let H := fresh in
          intros H; exfalso; apply (f_equal String.length) in H;
          unfold print_text in H; rewrite ?string_app_length in H;
          destruct (softspace _); rewrite ?string_app_length in H;
          cbn in H; lia ].

(** A name other than those a cell binds. *)
Ltac solve_names_frame :=
  let Hx := fresh in
  intros ? Hx; unfold conversion_binds, inference_binds in Hx;
  rewrite ?not_elem_of_cons in Hx;
  repeat match goal with H : _ ∧ _ |- _ => destruct H end;
  solve_frame.

Ltac solve_whole_frame :=
  split; [intros p Hp; solve_frame|];
  split; [solve_names_frame|];
  split; [solve_files_frame|];
  split; [solve_out_frame | solve_soft_frame].

(** Take apart the membership of an event in a trace that is written out. *)
Ltac in_trace H :=
  rewrite ?elem_of_cons, ?elem_of_nil in H;
  repeat (destruct H as [H|H]; [try discriminate H|]); try done.

Ltac run_cell :=
  exec; repeat (first [reuse | case_scrutinee]; kernel_simpl; exec); finish.

Ltac run_conversion :=
  unfold conversion_cell; kernel_simpl; exec; rewrite run_with; kernel_simpl;
  run_cell.
Ltac run_inference := unfold inference_cell; kernel_simpl; run_cell.

Section Cells.
Context {L : Libs}.

(** ** Failures go through *)

Lemma first_failure_at (t pre post : list event) c e :
  t = pre ++ (c, Raise e) :: post →
  match first_failure t with
  | Some (e1, post1) =>
      Forall is_exit post1 →
      e = e1 ∧ post = post1 ∧ Forall (λ ev, is_ok ev.2 = true) pre
  | None => False
  end.
Proof.
  revert t. induction pre as [|[c' [v|e']] pre IH]; intros t ->; cbn.
  - done.
  - specialize (IH _ eq_refl).
    destruct (first_failure _) as [[e1 post1]|]; [|done].
    intros Hex. destruct (IH Hex) as (-> & -> & Hpre). by repeat constructor.
  - intros Hex. apply Forall_app in Hex as [_ Hex].
    apply Forall_cons in Hex as [[f Hf] _]. discriminate Hf.
Qed.

Lemma propagates_at (o : outcome ()) pre post c e :
  propagates o → trace o = pre ++ (c, Raise e) :: post →
  res o = Raise e ∧ Forall is_exit post ∧ Forall (λ ev, is_ok ev.2 = true) pre.
Proof.
  unfold propagates. intros Hp Ht. pose proof (first_failure_at _ _ _ _ _ Ht) as Hf.
  destruct (first_failure (trace o)) as [[e1 post1]|]; [|done].
  destruct Hp as [Hres Hex]. destruct (Hf Hex) as (-> & -> & Hpre). done.
Qed.

Lemma conversion_cell_propagates k : propagates (conversion_cell k).
Proof.
  run_conversion; unfold propagates; cbn;
    first [done | split; [done | repeat constructor; by eexists]].
Qed.

Lemma inference_cell_propagates k : propagates (inference_cell k).
Proof. run_inference; unfold propagates; by cbn. Qed.

Lemma sanity_cell_trace k :
  ns k !! "onnx_model" = None ∧
    sanity_cell k = Outcome [] k (Raise (Exn "NameError" "onnx_model"))
  ∨ ∃ v, ns k !! "onnx_model" = Some v ∧
    sanity_cell k =
      (n ← invoke (graph_node_getitem v (VInt 0));
       invoke (print_item n);; invoke print_newline;; mret ()) k.
Proof.
  unfold sanity_cell. destruct (ns k !! "onnx_model") as [v|] eqn:Hv.
  - right. exists v. split; [done|]. by erewrite run_bind_var.
  - left. split; [done|]. by rewrite run_bind_var_unbound.
Qed.

Lemma sanity_cell_propagates k :
  is_Some (ns k !! "onnx_model") → propagates (sanity_cell k).
Proof.
  intros [v Hv]. destruct (sanity_cell_trace k) as [[? _]|(v' & _ & ->)]; [congruence|].
  run_cell; unfold propagates; by cbn.
Qed.

(** ** The conversion call *)

Lemma conversion_call_shape k c :
  c ∈ calls_named "tensorflow_graph_to_onnx_model" (trace (conversion_cell k)) →
  ∃ g, c = tensorflow_graph_to_onnx_model g (VStr "fc2/add") (VInt 6).
Proof.
  unfold calls_named. rewrite list_elem_of_filter, list_elem_of_fmap.
  run_conversion; intros (Hname & [c' r] & -> & Hin).
  all: rewrite ?elem_of_cons, ?elem_of_nil in Hin.
  all: repeat (destruct Hin as [Hin|Hin];
               [injection Hin as -> ->; cbn in Hname; try discriminate Hname;
                by eexists|]); done.
Qed.

(** ** The conversion cell when it ends normally *)

Lemma close_both (l : list fobj) x y :
  alter mark_closed (length l)
    (alter mark_closed (length (l ++ [x])) ((l ++ [x]) ++ [y]))
  = l ++ [mark_closed x; mark_closed y].
Proof.
  rewrite <-(Nat.add_0_r (length (l ++ [x]))), alter_app_r. cbn.
  rewrite <-app_assoc. cbn.
  by rewrite <-(Nat.add_0_r (length l)), alter_app_r.
Qed.

Lemma conversion_cell_success k :
  res (conversion_cell k) = Ok () →
  ∃ data g m b,
    fs k !! "frozen_graph.pb" = Some data
    ∧ lib_GraphDef_ParseFromString lib_GraphDef data = Ok g
    ∧ lib_tensorflow_graph_to_onnx_model g "fc2/add" 6 = Ok m
    ∧ lib_SerializeToString m = Ok b
    ∧ trace (conversion_cell k) =
        (let f := VFile (length (files k)) in
         let file := VFile (S (length (files k))) in
         [(GFile (VStr "frozen_graph.pb") (VStr "rb"), Ok f);
          (__enter__ f, Ok f);
          (tf_GraphDef, Ok (VGraphDef lib_GraphDef));
          (read f, Ok (VBytes data));
          (ParseFromString (VGraphDef lib_GraphDef) (VBytes data), Ok VNone);
          (tensorflow_graph_to_onnx_model (VGraphDef g) (VStr "fc2/add") (VInt 6),
           Ok (VModel m));
          (open (VStr "mnist.onnx") (VStr "wb"), Ok file);
          (SerializeToString (VModel m), Ok (VBytes b));
          (write file (VBytes b), Ok VNone);
          (close file, Ok VNone);
          (__exit__ f, Ok VNone)])
    ∧ fs (final (conversion_cell k)) = <["mnist.onnx" := b]> (fs k)
    ∧ files (final (conversion_cell k)) =
        files k ++ [FObj "frozen_graph.pb" "rb" true; FObj "mnist.onnx" "wb" true].
Proof.
  run_conversion; intros Hres; try discriminate Hres.
  eexists _, _, _, _. repeat (split; [done|]).
  rewrite close_both, length_app, Nat.add_1_r, lookup_insert_eq, insert_insert_eq.
  done.
Qed.

(** The conversion cell does end normally when every call it makes does. *)
Lemma conversion_cell_ends_normally k data g m b :
  fs k !! "frozen_graph.pb" = Some data →
  lib_GraphDef_ParseFromString lib_GraphDef data = Ok g →
  lib_tensorflow_graph_to_onnx_model g "fc2/add" 6 = Ok m →
  os_open_error "mnist.onnx" = None →
  lib_SerializeToString m = Ok b →
  os_write_error "mnist.onnx" b = None →
  res (conversion_cell k) = Ok ().
Proof.
  intros Hfile Hparse Hconv Hopen Hser Hwrite. run_conversion.
  all: repeat match goal with
       | H : ?x = Some _, H' : ?x = Some _ |- _ => rewrite H in H'; injection H' as <-
       | H : ?x = Ok _, H' : ?x = Ok _ |- _ => rewrite H in H'; injection H' as <-
       end; congruence.
Qed.

(** ** File objects *)

(** X4. A conversion cell that ends normally leaves open the file objects
    that were open, and no other. *)
Lemma conversion_cell_closes k :
  res (conversion_cell k) = Ok () →
  open_files (final (conversion_cell k)) = open_files k.
Proof.
  intros Hres.
  destruct (conversion_cell_success k Hres) as (? & ? & ? & ? & _ & _ & _ & _ & _ & _ & Hf).
  unfold open_files. rewrite Hf, filter_app.
  replace (filter _ [_; _]) with (@nil fobj) by reflexivity. apply app_nil_r.
Qed.

(** However the conversion cell ends, the [with] statement has closed the
    frozen-graph file. *)
Lemma frozen_graph_handle_closed k :
  files (final (conversion_cell k)) !! length (files k)
  = Some (FObj "frozen_graph.pb" "rb" true).
Proof.
  run_conversion.
  all: rewrite list_lookup_alter_eq.
  all: try rewrite list_lookup_alter_ne by (rewrite length_app; cbn; lia).
  all: rewrite <-?app_assoc; cbn [app]; by rewrite list_lookup_middle.
Qed.

Lemma close_first (l : list fobj) x y :
  alter mark_closed (length l) ((l ++ [x]) ++ [y]) = l ++ [mark_closed x; y].
Proof.
  rewrite <-app_assoc. cbn.
  by rewrite <-(Nat.add_0_r (length l)), alter_app_r.
Qed.

(** X5. When [SerializeToString] or [write] raises, the file object of
    mnist.onnx is left open: [file.close()] is not reached, and the [with]
    statement closes the frozen-graph file only. *)
Lemma output_handle_leaks k c e :
  (c, Raise e) ∈ trace (conversion_cell k) →
  name_of c = "SerializeToString" ∨ name_of c = "write" →
  open_files (final (conversion_cell k))
  = open_files k ++ [FObj "mnist.onnx" "wb" false].
Proof.
  run_conversion; intros Hin Hname; in_trace Hin.
  all: injection Hin as -> _; destruct Hname as [Hname|Hname];
    try discriminate Hname.
  all: unfold open_files; kernel_simpl; rewrite close_first, filter_app.
  all: by replace (filter _ [_; _]) with [FObj "mnist.onnx" "wb" false].
Qed.

(** ** What the inference cell loads *)

Lemma inference_cell_loads k b m :
  fs k !! "mnist.onnx" = Some b →
  lib_ModelProto_ParseFromString b = Ok m →
  (onnx_load (VStr "mnist.onnx"), Ok (VModel m)) ∈ trace (inference_cell k)
  ∧ calls_named "onnx.load" (trace (inference_cell k)) = [onnx_load (VStr "mnist.onnx")]
  ∧ calls_named "prepare" (trace (inference_cell k)) = [prepare (VModel m)].
Proof.
  intros Hfile Hparse. unfold inference_cell. exec. rewrite Hfile, Hparse.
  run_cell; (split; [elem_here | split; reflexivity]).
Qed.

(** The inference cell does end normally when every call it makes does: the
    model file parses, the image file holds an array of 784 elements, and
    the backend accepts both. *)
Lemma inference_cell_ends_normally k b m rep data a o z :
  fs k !! "mnist.onnx" = Some b →
  lib_ModelProto_ParseFromString b = Ok m →
  lib_prepare m = Ok rep →
  fs k !! "./assets/image.npz" = Some data →
  lib_np_load data = Ok (inl a) →
  arr_size a = 784 →
  lib_run rep (NdArray [1; 784] (arr_data a)) = Ok o →
  lib_np_argmax o = Ok z →
  res (inference_cell k) = Ok ().
Proof.
  intros Hfile Hparse Hprep Himg Hload Hsize Hrun Hmax. run_inference.
  all: repeat match goal with
       | H : ?x = Some _, H' : ?x = Some _ |- _ => rewrite H in H'; injection H' as <-
       | H : ?x = Ok _, H' : ?x = Ok _ |- _ => rewrite H in H'; injection H' as <-
       | H : bool_decide _ = false |- _ => apply bool_decide_eq_false_1 in H
       end; congruence.
Qed.

(** ** Order of the calls, and what a run changes *)

Lemma conversion_cell_linear k :
  follows conversion_script (trace (conversion_cell k))
  ∧ (res (conversion_cell k) = Ok () →
     name_of <$> (trace (conversion_cell k)).*1 = conversion_script)
  ∧ frame conversion_binds k (conversion_cell k).
Proof.
  run_conversion.
  all: split; [solve_follows|]; split; [by intros|].
  all: solve_whole_frame.
Qed.

Lemma inference_cell_linear k :
  follows inference_script (trace (inference_cell k))
  ∧ (res (inference_cell k) = Ok () →
     name_of <$> (trace (inference_cell k)).*1 = inference_script)
  ∧ frame inference_binds k (inference_cell k)
  ∧ fs (final (inference_cell k)) = fs k.
Proof.
  run_inference.
  all: split; [solve_follows|]; split; [by intros|].
  all: split; [|done].
  all: solve_whole_frame.
Qed.

Lemma sanity_cell_linear k :
  follows sanity_script (trace (sanity_cell k))
  ∧ (res (sanity_cell k) = Ok () →
     name_of <$> (trace (sanity_cell k)).*1 = sanity_script)
  ∧ frame [] k (sanity_cell k)
  ∧ fs (final (sanity_cell k)) = fs k.
Proof.
  destruct (sanity_cell_trace k) as [[_ ->]|(v & _ & ->)].
  - do 2 (split; [done|]). split; [|done]. solve_whole_frame.
  - run_cell.
    all: split; [solve_follows|]; split; [by intros|].
    all: split; [|done].
    all: solve_whole_frame.
Qed.

(** ** What the cells print, and the outputs the notebook records

    The libraries being a parameter, what a cell prints depends on them; the
    text stored in the notebook tells what they gave in the run that was
    recorded. *)

(** X10. An inference cell that ends normally has printed the words, a
    blank, the label [np.argmax] returned, in decimal, and a newline: two
    blanks before the label, the words ending in one. *)
Lemma inference_cell_prints k :
  res (inference_cell k) = Ok () →
  ∃ o z, (np_argmax o, Ok (VInt z)) ∈ trace (inference_cell k)
    ∧ stdout (final (inference_cell k))
      = stdout k +:+ print_text (softspace k) (VStr "The digit is classified as ")
          +:+ " " +:+ pretty z +:+ newline.
Proof.
  run_inference; intros Hres; try discriminate Hres.
  eexists _, _. split; [elem_here|]. by rewrite !string_app_assoc.
Qed.

(** X11. A run of the inference cell that printed the recorded line got the
    label 7 from [np.argmax]. *)
Lemma recorded_label k o z :
  softspace k = false →
  stdout (final (inference_cell k)) = stdout k +:+ recorded_inference_stdout →
  res (inference_cell k) = Ok () →
  (np_argmax o, Ok (VInt z)) ∈ trace (inference_cell k) →
  z = 7.
Proof.
  intros Hsoft. run_inference; intros Hout Hres Hin; try discriminate Hres.
  in_trace Hin. injection Hin as _ ->.
  rewrite Hsoft, !string_app_assoc in Hout.
  apply (inj (String.app _)) in Hout.
  change recorded_inference_stdout
    with ("The digit is classified as " +:+ " " +:+ pretty 7 +:+ newline) in Hout.
  change (soft_after (VStr "The digit is classified as ")) with true in Hout.
  cbn [print_text py_str] in Hout. rewrite !string_app_assoc in Hout.
  do 2 apply (inj (String.app _)) in Hout.
  apply string_app_inv_tail in Hout. by apply (inj pretty).
Qed.

(** X12. A sanity cell that ends normally found [onnx_model] bound to a
    model and has printed the text of the first node of its graph, then a
    newline. *)
Lemma sanity_cell_prints k :
  res (sanity_cell k) = Ok () →
  ∃ m n, ns k !! "onnx_model" = Some (VModel m)
    ∧ py_index (lib_graph_node m) 0 = Some n
    ∧ stdout (final (sanity_cell k))
      = stdout k +:+ print_text (softspace k) (VNode n) +:+ newline.
Proof.
  destruct (sanity_cell_trace k) as [[_ ->]|(v & Hv & ->)]; [done|].
  run_cell; intros Hres; try discriminate Hres.
  eexists _, _. split; [eassumption|]. split; [eassumption|].
  by rewrite !string_app_assoc.
Qed.

(** X13. A run of the sanity cell that printed the recorded text printed a
    first node whose text is the recorded one, operator type Reshape. *)
Lemma recorded_node k m n :
  softspace k = false →
  ns k !! "onnx_model" = Some (VModel m) →
  py_index (lib_graph_node m) 0 = Some n →
  stdout (final (sanity_cell k)) = stdout k +:+ recorded_sanity_stdout →
  lib_NodeProto_str n = recorded_first_node.
Proof.
  intros Hsoft Hm Hn.
  destruct (sanity_cell_trace k) as [[? _]|(v & Hv & ->)]; [congruence|].
  replace v with (VModel m) by congruence.
  exec. rewrite Hn. run_cell. intros Hout.
  rewrite Hsoft, !string_app_assoc in Hout.
  apply (inj (String.app _)) in Hout. by apply string_app_inv_tail in Hout.
Qed.

(** ** What the cells hand to the calls *)

Ltac solve_passes_on :=
  split; [solve_provenance|];
  intros ? ? ? Hin; in_trace Hin.

Lemma conversion_cell_passes_on k :
  provenance (given [] k) (trace (conversion_cell k))
  ∧ run_gets_reshaped (trace (conversion_cell k)).
Proof.
  unfold run_gets_reshaped. run_conversion.
  all: solve_passes_on.
Qed.

Lemma inference_cell_passes_on k :
  provenance (given [] k) (trace (inference_cell k))
  ∧ run_gets_reshaped (trace (inference_cell k)).
Proof.
  unfold run_gets_reshaped. run_inference.
  all: solve_passes_on.
  all: injection Hin as -> -> ->; eexists _, _; split; [elem_here | done].
Qed.

Lemma sanity_cell_passes_on k :
  provenance (given ["onnx_model"] k) (trace (sanity_cell k))
  ∧ run_gets_reshaped (trace (sanity_cell k)).
Proof.
  unfold run_gets_reshaped.
  destruct (sanity_cell_trace k) as [[Hv ->]|(v & Hv & ->)].
  - split; [done|]. intros rep x r Hin. by apply elem_of_nil in Hin.
  - run_cell; solve_passes_on.
Qed.

(** ** Nothing handled, nothing checked *)

Lemma propagates_no_handling read k (o : outcome ()) :
  propagates o → no_handling read k o.
Proof.
  unfold propagates, no_handling.
  destruct (first_failure (trace o)) as [[e post]|]; [done | by left].
Qed.

Lemma conversion_cell_no_handling k : no_handling [] k (conversion_cell k).
Proof. apply propagates_no_handling, conversion_cell_propagates. Qed.

Lemma inference_cell_no_handling k : no_handling [] k (inference_cell k).
Proof. apply propagates_no_handling, inference_cell_propagates. Qed.

Lemma sanity_cell_no_handling k : no_handling ["onnx_model"] k (sanity_cell k).
Proof.
  destruct (sanity_cell_trace k) as [[Hv Hs]|(v & Hv & _)].
  - unfold no_handling. rewrite Hs. cbn. right. exists "onnx_model".
    split; [apply list_elem_of_here | done].
  - by apply propagates_no_handling, sanity_cell_propagates.
Qed.

End Cells.

Section Claims.
Context {L : Libs}.

(** C4. Whenever a call made by a cell raises, the cell ends with that very
    exception: no call before it had raised, the cell makes no further call
    of its own (so nothing is retried or recovered), and the only call that
    may still run is the [__exit__] of the enclosing [with] statement, which
    lets the exception through. *)
Theorem error_propagates (cell : py ()) k pre c e post :
  cell ∈ cells →
  trace (cell k) = pre ++ (c, Raise e) :: post →
  res (cell k) = Raise e ∧ Forall is_exit post
  ∧ Forall (λ ev, is_ok ev.2 = true) pre.
Proof.
  unfold cells. rewrite !elem_of_cons, elem_of_nil.
  intros [->|[->|[->|[]]]] Ht.
  - eapply propagates_at; [apply conversion_cell_propagates|done].
  - destruct (sanity_cell_trace k) as [[_ Hs]|(v & Hv & _)].
    + rewrite Hs in Ht. by destruct pre.
    + eapply propagates_at; [by apply sanity_cell_propagates|done].
  - eapply propagates_at; [apply inference_cell_propagates|done].
Qed.

(** C5. The conversion call is made once the frozen graph has been read
    from frozen_graph.pb and parsed, and then exactly once: with the parsed
    graph, the output node name "fc2/add" and the version number 6, and
    nothing else. *)
Theorem conversion_call_arguments k :
  calls_named "tensorflow_graph_to_onnx_model" (trace (conversion_cell k)) =
  match fs k !! "frozen_graph.pb" with
  | Some data =>
      match lib_GraphDef_ParseFromString lib_GraphDef data with
      | Ok g =>
          [tensorflow_graph_to_onnx_model (VGraphDef g) (VStr "fc2/add") (VInt 6)]
      | Raise _ => []
      end
  | None => []
  end.
Proof. run_conversion; first [reflexivity | congruence]. Qed.

(** C10. The node name every conversion call receives is the value of the
    flag --output_node_names of the freezing command, fc2/add. *)
Theorem output_node_name_consistent k c :
  c ∈ calls_named "tensorflow_graph_to_onnx_model" (trace (conversion_cell k)) →
  ∃ name, flag_value "output_node_names" freeze_graph_command = Some name
    ∧ args_of c !! 1%nat = Some (VStr name).
Proof.
  intros [g ->]%conversion_call_shape. exists "fc2/add". by split.
Qed.

(** C9. The backend's [run] is only ever handed an array of shape
    [[1, 784]]; an array loaded from the image file with 784 elements is
    reshaped to that shape, its elements kept, and handed to [run]; for an
    array of any other size [reshape] raises and [run] is not called. *)
Theorem reshape_guards_run k :
  (∀ rep x r, (run rep x, r) ∈ trace (inference_cell k) →
     ∃ p a, (np_load p, Ok (VArray a)) ∈ trace (inference_cell k)
       ∧ arr_size a = 784
       ∧ x = VArray (NdArray [1; 784] (arr_data a)))
  ∧ (∀ p a, (np_load p, Ok (VArray a)) ∈ trace (inference_cell k) →
       if bool_decide (arr_size a = 784)
       then ∃ rep r,
         (reshape (VArray a) (VList [VInt 1; VInt 784]),
          Ok (VArray (NdArray [1; 784] (arr_data a)))) ∈ trace (inference_cell k)
         ∧ (run rep (VArray (NdArray [1; 784] (arr_data a))), r)
             ∈ trace (inference_cell k)
       else
         (∃ e, (reshape (VArray a) (VList [VInt 1; VInt 784]), Raise e)
                 ∈ trace (inference_cell k))
         ∧ calls_named "run" (trace (inference_cell k)) = []).
Proof.
  run_inference.
  all: split; [intros rep x r Hin | intros p a' Hin].
  all: rewrite ?elem_of_cons, ?elem_of_nil in Hin.
  all: repeat (destruct Hin as [Hin|Hin]; [try discriminate Hin|]); try done.
  all: try (injection Hin as -> -> ->; eexists _, _;
            split; [elem_here | split; [by eapply bool_decide_eq_true_1 | done]]).
  all: injection Hin as -> ->.
  all: match goal with H : bool_decide _ = _ |- _ => rewrite H end.
  all: try (split; [eexists; elem_here | reflexivity]).
  all: eexists _, _; split; elem_here.
Qed.

(** C6. When the conversion cell ends normally, what it wrote to the file
    mnist.onnx, in one [write], is the serialization of the model the
    conversion call returned, and that is the content of the file; the
    inference cell, run in any state where the file still has that content,
    loads from the same path, and, the library's parsing undoing its
    serialization, what it loads and hands to [prepare] is the converted
    model. *)
Theorem model_round_trip k k2 :
  (∀ m b, lib_SerializeToString m = Ok b → lib_ModelProto_ParseFromString b = Ok m) →
  res (conversion_cell k) = Ok () →
  fs k2 !! "mnist.onnx" = fs (final (conversion_cell k)) !! "mnist.onnx" →
  ∃ g m b file,
    (tensorflow_graph_to_onnx_model g (VStr "fc2/add") (VInt 6), Ok (VModel m))
      ∈ trace (conversion_cell k)
    ∧ lib_SerializeToString m = Ok b
    ∧ (open (VStr "mnist.onnx") (VStr "wb"), Ok file) ∈ trace (conversion_cell k)
    ∧ calls_named "write" (trace (conversion_cell k)) = [write file (VBytes b)]
    ∧ fs (final (conversion_cell k)) !! "mnist.onnx" = Some b
    ∧ calls_named "onnx.load" (trace (inference_cell k2))
      = [onnx_load (VStr "mnist.onnx")]
    ∧ (onnx_load (VStr "mnist.onnx"), Ok (VModel m)) ∈ trace (inference_cell k2)
    ∧ calls_named "prepare" (trace (inference_cell k2)) = [prepare (VModel m)].
Proof.
  intros Hlaw Hres Hsame.
  destruct (conversion_cell_success k Hres)
    as (data & g & m & b & _ & _ & _ & Hser & Ht & Hfs & _).
  rewrite Hfs, lookup_insert_eq in Hsame.
  destruct (inference_cell_loads k2 b m Hsame (Hlaw _ _ Hser)) as (Hload & Hloads & Hprep).
  exists (VGraphDef g), m, b, (VFile (S (length (files k)))).
  rewrite Ht, Hfs, lookup_insert_eq. cbn zeta.
  split; [elem_here|]. split; [done|]. split; [elem_here|]. split; [reflexivity|].
  done.
Qed.

(** C3, as amended. Every object a cell hands to a call is a literal of its
    source, what an earlier call of the cell returned, as it was returned,
    the message an earlier [ParseFromString] filled in place, as that call
    left it, or, in the sanity cell, the object bound to [onnx_model] when
    the cell started.  The cell handles nothing and checks nothing itself: a
    call that raises ends the cell with that exception, nothing being called
    after it but the [__exit__] of the [with]; a cell none of whose calls
    raised ends normally, but for the sanity cell that made no call because
    [onnx_model] was not bound, which ends with that NameError.  The input
    array is the exception to "handed on as loaded": what [run] receives is
    the loaded array under the shape [[1, 784]], made by numpy's [reshape],
    with the same elements. *)
Theorem objects_passed_on (c : listing) k :
  c ∈ notebook →
  provenance (given (reads c) k) (trace (code c k))
  ∧ no_handling (reads c) k (code c k)
  ∧ run_gets_reshaped (trace (code c k)).
Proof.
  unfold notebook. rewrite !elem_of_cons, elem_of_nil.
  intros [->|[->|[->|[]]]]; cbn [code reads].
  - destruct (conversion_cell_passes_on k) as [Hp Hr].
    split; [done|]. split; [apply conversion_cell_no_handling | done].
  - destruct (sanity_cell_passes_on k) as [Hp Hr].
    split; [done|]. split; [apply sanity_cell_no_handling | done].
  - destruct (inference_cell_passes_on k) as [Hp Hr].
    split; [done|]. split; [apply inference_cell_no_handling | done].
Qed.

(** C7, as amended. The calls of a cell are those of its script, in order,
    up to the first that raises (after which only the [__exit__] of the
    [with] runs), and all of them when the cell ends normally.  The cell
    takes no way of its own: it ends with the exception of the call that
    raised, and normally when none raised, but for the sanity cell that made
    no call because [onnx_model] was not bound.  A run changes no file other
    than mnist.onnx and no name other than those the cell binds by an
    import, a [with] or an assignment; it leaves the file objects there were
    as they were, adds to what had been printed, and leaves the [softspace]
    flag of the standard output as it was unless it printed. *)
Theorem linear_and_retained (c : listing) k :
  c ∈ notebook →
  follows (calls c) (trace (code c k))
  ∧ no_handling (reads c) k (code c k)
  ∧ (res (code c k) = Ok () → name_of <$> (trace (code c k)).*1 = calls c)
  ∧ frame (binds c) k (code c k).
Proof.
  unfold notebook. rewrite !elem_of_cons, elem_of_nil.
  intros [->|[->|[->|[]]]]; cbn [code reads binds calls].
  - destruct (conversion_cell_linear k) as (? & ? & ?).
    split; [done|]. split; [apply conversion_cell_no_handling | done].
  - destruct (sanity_cell_linear k) as (? & ? & ? & _).
    split; [done|]. split; [apply sanity_cell_no_handling | done].
  - destruct (inference_cell_linear k) as (? & ? & ? & _).
    split; [done|]. split; [apply inference_cell_no_handling | done].
Qed.

End Claims.

(** C8, at the failing input. On a full disk [file.write] raises, the cell
    ends with that IOError without having called [file.close()], and the
    file object of mnist.onnx is still open when the cell is over; the
    frozen-graph file, held by the [with] statement, is closed. *)
Theorem output_handle_left_open :
  res (conversion_cell (L := disk_full) fresh_kernel)
  = Raise (Exn "IOError" "[Errno 28] No space left on device")
  ∧ calls_named "close" (trace (conversion_cell (L := disk_full) fresh_kernel)) = []
  ∧ open_files (final (conversion_cell (L := disk_full) fresh_kernel))
    = [FObj "mnist.onnx" "wb" false].
Proof. vm_compute. done. Qed.

(** ** The claims at the sample instance *)

(** In an empty directory the conversion cell fails at [f.read()]; the
    NotFoundError is what the cell raises, after the [__exit__] of the
    [with] statement. *)
Lemma error_propagates_witness :
  res (conversion_cell (L := sample) empty_kernel)
  = Raise (Exn "NotFoundError" "frozen_graph.pb")
  ∧ Forall is_exit [(__exit__ (L := sample) (VFile 0), Ok VNone)]
  ∧ Forall (λ ev, is_ok ev.2 = true)
      [(GFile (L := sample) (VStr "frozen_graph.pb") (VStr "rb"), Ok (VFile 0));
       (__enter__ (VFile 0), Ok (VFile 0));
       (tf_GraphDef, Ok (VGraphDef (L := sample) []))].
Proof.
  apply (error_propagates (L := sample) conversion_cell empty_kernel _
           (read (VFile 0))).
  - unfold cells. apply list_elem_of_here.
  - vm_compute. reflexivity.
Defined.

(** With the sample libraries the conversion call is made, and its node name
    is the one the graph was frozen with. *)
Lemma output_node_name_consistent_witness :
  ∃ name, flag_value "output_node_names" freeze_graph_command = Some name
    ∧ args_of (L := sample)
        (tensorflow_graph_to_onnx_model (VGraphDef (L := sample) ["010"; "003"]%byte)
           (VStr "fc2/add") (VInt 6)) !! 1%nat
      = Some (VStr name).
Proof.
  apply (output_node_name_consistent (L := sample) fresh_kernel).
  vm_compute. apply list_elem_of_here.
Defined.

(** The sample libraries parse what they serialize; the model prepared
    after the conversion cell has run is the converted one. *)
Lemma model_round_trip_witness :
  ∃ g m b file,
    (tensorflow_graph_to_onnx_model g (VStr "fc2/add") (VInt 6), Ok (VModel m))
      ∈ trace (conversion_cell (L := sample) fresh_kernel)
    ∧ lib_SerializeToString (Libs := sample) m = Ok b
    ∧ (open (VStr "mnist.onnx") (VStr "wb"), Ok file)
        ∈ trace (conversion_cell (L := sample) fresh_kernel)
    ∧ calls_named "write" (trace (conversion_cell (L := sample) fresh_kernel))
      = [write file (VBytes b)]
    ∧ fs (final (conversion_cell (L := sample) fresh_kernel)) !! "mnist.onnx" = Some b
    ∧ calls_named "onnx.load" (trace (inference_cell converted_kernel))
      = [onnx_load (VStr "mnist.onnx")]
    ∧ (onnx_load (VStr "mnist.onnx"), Ok (VModel m))
        ∈ trace (inference_cell converted_kernel)
    ∧ calls_named "prepare" (trace (inference_cell converted_kernel))
      = [prepare (VModel m)].
Proof.
  apply (model_round_trip (L := sample) fresh_kernel converted_kernel).
  - intros m b. cbn. congruence.
  - vm_compute. reflexivity.
  - reflexivity.
Defined.

(** The inference cell after the conversion cell, with the sample
    libraries. *)
Lemma objects_passed_on_witness :
  provenance (given [] converted_kernel) (trace (inference_cell converted_kernel))
  ∧ no_handling [] converted_kernel (inference_cell converted_kernel)
  ∧ run_gets_reshaped (trace (inference_cell converted_kernel)).
Proof.
  apply (objects_passed_on (L := sample)
           (Listing inference_cell [] inference_binds inference_script)
           converted_kernel).
  unfold notebook. do 2 apply list_elem_of_further. apply list_elem_of_here.
Defined.

(** The conversion cell in the sample directory. *)
Lemma linear_and_retained_witness :
  follows conversion_script (trace (conversion_cell (L := sample) fresh_kernel))
  ∧ no_handling [] fresh_kernel (conversion_cell (L := sample) fresh_kernel)
  ∧ (res (conversion_cell (L := sample) fresh_kernel) = Ok () →
     name_of <$> (trace (conversion_cell (L := sample) fresh_kernel)).*1
     = conversion_script)
  ∧ frame conversion_binds fresh_kernel (conversion_cell (L := sample) fresh_kernel).
Proof.
  apply (linear_and_retained (L := sample)
           (Listing conversion_cell [] conversion_binds conversion_script)
           fresh_kernel).
  unfold notebook. apply list_elem_of_here.
Defined.

(** An image of 4 elements: [reshape] raises and [run] is not called. *)
Lemma reshape_guards_run_witness :
  (∃ e, (reshape (L := sample)
           (VArray (L := sample) (NdArray [4] (replicate 4 "000"%byte)))
           (VList [VInt 1; VInt 784]), Raise e)
        ∈ trace (inference_cell (L := sample) small_image_kernel))
  ∧ calls_named "run" (trace (inference_cell (L := sample) small_image_kernel)) = [].
Proof.
  apply (proj2 (reshape_guards_run (L := sample) small_image_kernel)
           (VStr "./assets/image.npz")
           (NdArray (T := scalar (Libs := sample)) [4] (replicate 4 "000"%byte))).
  vm_compute. do 2 apply list_elem_of_further. apply list_elem_of_here.
Defined.

(** ** Where the claims as worded fail *)

(** C3 as worded: with the sample libraries the array that [np.load]
    returned has shape [[784]], and [run] is handed another object, of shape
    [[1, 784]]. *)
Lemma array_reshaped_before_run :
  ¬ handed_unmodified (trace (inference_cell (L := sample) converted_kernel)).
Proof.
  intros H.
  specialize (H (VStr "./assets/image.npz")
                (VArray (L := sample) (NdArray [784] (replicate 784 "000"%byte)))
                (VRep (L := sample) ["010"; "003"]%byte)
                (VArray (L := sample) (NdArray [1; 784] (replicate 784 "000"%byte)))
                (Ok (VOutputs (L := sample) 7))).
  assert (VArray (L := sample) (NdArray [1; 784] (replicate 784 "000"%byte))
          = VArray (L := sample) (NdArray [784] (replicate 784 "000"%byte))) as Heq.
  { apply H; vm_compute; elem_here. }
  discriminate Heq.
Qed.

(** The names of one cell are there for the next: the sanity cell raises
    NameError in a fresh kernel and ends normally after the conversion cell,
    which bound [onnx_model]. *)
Lemma names_shared_between_cells :
  res (sanity_cell (L := sample) fresh_kernel)
  = Raise (Exn "NameError" "onnx_model")
  ∧ res (sanity_cell converted_kernel) = Ok ()
  ∧ stdout (final (sanity_cell converted_kernel)) = recorded_sanity_stdout.
Proof. repeat split; vm_compute; reflexivity. Qed.

(** C7 as worded: the conversion cell leaves a file behind, mnist.onnx; the
    inference cell ends normally in the state the conversion cell left and
    raises IOError in the same state, all names kept, with the files as they
    were before. *)
Lemma file_is_retained_state :
  ¬ keeps_only_variables fresh_kernel converted_kernel
  ∧ res (inference_cell converted_kernel) = Ok ()
  ∧ res (inference_cell (with_files_of fresh_kernel converted_kernel))
    = Raise (Exn "IOError" "mnist.onnx").
Proof.
  split; [|split; vm_compute; reflexivity].
  intros H. apply (f_equal (λ m, m !! "mnist.onnx")) in H.
  vm_compute in H. discriminate H.
Qed.

(** * Further properties of the cells *)

Section Further.
Context {L : Libs}.

(** ** When the cells end normally *)

Lemma conversion_cell_normal k :
  res (conversion_cell k) = Ok () →
  ∃ data g m b,
    fs k !! "frozen_graph.pb" = Some data
    ∧ lib_GraphDef_ParseFromString lib_GraphDef data = Ok g
    ∧ lib_tensorflow_graph_to_onnx_model g "fc2/add" 6 = Ok m
    ∧ os_open_error "mnist.onnx" = None
    ∧ lib_SerializeToString m = Ok b
    ∧ os_write_error "mnist.onnx" b = None.
Proof.
  run_conversion; intros Hres; try discriminate Hres.
  eexists _, _, _, _. repeat split; eassumption.
Qed.

(** X1. A conversion cell that ends normally has made every call of its
    script and none of them raised: the frozen graph was there and parsed,
    the conversion call returned a model, mnist.onnx was opened for writing,
    and the model was serialized and written. *)
Theorem conversion_cell_normal_end k :
  res (conversion_cell k) = Ok () →
  (∃ data g m b,
     fs k !! "frozen_graph.pb" = Some data
     ∧ lib_GraphDef_ParseFromString lib_GraphDef data = Ok g
     ∧ lib_tensorflow_graph_to_onnx_model g "fc2/add" 6 = Ok m
     ∧ os_open_error "mnist.onnx" = None
     ∧ lib_SerializeToString m = Ok b
     ∧ os_write_error "mnist.onnx" b = None)
  ∧ name_of <$> (trace (conversion_cell k)).*1 = conversion_script
  ∧ Forall (λ ev, is_ok ev.2 = true) (trace (conversion_cell k)).
Proof.
  run_conversion; intros Hres; try discriminate Hres.
  split; [eexists _, _, _, _; repeat split; eassumption|].
  split; [reflexivity|]. by repeat constructor.
Qed.

Lemma inference_cell_normal k :
  res (inference_cell k) = Ok () →
  ∃ b m rep data a o z,
    fs k !! "mnist.onnx" = Some b
    ∧ lib_ModelProto_ParseFromString b = Ok m
    ∧ lib_prepare m = Ok rep
    ∧ fs k !! "./assets/image.npz" = Some data
    ∧ lib_np_load data = Ok (inl a)
    ∧ arr_size a = 784
    ∧ lib_run rep (NdArray [1; 784] (arr_data a)) = Ok o
    ∧ lib_np_argmax o = Ok z.
Proof.
  run_inference; intros Hres; try discriminate Hres.
  eexists _, _, _, _, _, _, _. repeat split; try eassumption.
  by eapply bool_decide_eq_true_1.
Qed.

(** X2. The inference cell ends normally exactly when mnist.onnx is there
    and parses, the backend prepares the model, the image file is there and
    holds an array of 784 elements, and [run] and [np.argmax] return. *)
Theorem inference_cell_ends_normally_iff k :
  res (inference_cell k) = Ok () ↔
  ∃ b m rep data a o z,
    fs k !! "mnist.onnx" = Some b
    ∧ lib_ModelProto_ParseFromString b = Ok m
    ∧ lib_prepare m = Ok rep
    ∧ fs k !! "./assets/image.npz" = Some data
    ∧ lib_np_load data = Ok (inl a)
    ∧ arr_size a = 784
    ∧ lib_run rep (NdArray [1; 784] (arr_data a)) = Ok o
    ∧ lib_np_argmax o = Ok z.
Proof.
  split; [apply inference_cell_normal|].
  intros (b & m & rep & data & a & o & z & ? & ? & ? & ? & ? & ? & ? & ?).
  by eapply inference_cell_ends_normally.
Qed.

(** ** Files and file objects *)

(** X3. However the conversion cell ends, [f] is bound to the file object
    the [with] statement made for frozen_graph.pb, and that object is
    closed. *)
Theorem frozen_graph_closed_on_every_path k :
  ns (final (conversion_cell k)) !! "f" = Some (VFile (length (files k)))
  ∧ files (final (conversion_cell k)) !! length (files k)
    = Some (FObj "frozen_graph.pb" "rb" true).
Proof.
  split; [|apply frozen_graph_handle_closed].
  run_conversion; kernel_simpl;
    repeat (rewrite lookup_insert_ne by done); apply lookup_insert_eq.
Qed.

(** X6. What a conversion cell leaves of mnist.onnx when a call before
    [write] raised: when that call is [SerializeToString], the file has been
    opened for writing and nothing has been written to it, so that it is
    empty, whatever it held; when it is an earlier call, the files are as
    they were. *)
Theorem failed_serialization_leaves_empty_file k c e :
  (c, Raise e) ∈ trace (conversion_cell k) →
  (name_of c = "SerializeToString" →
   fs (final (conversion_cell k)) = <["mnist.onnx" := []]> (fs k))
  ∧ (name_of c ∈ ["tf.gfile.GFile"; "__enter__"; "tf.GraphDef"; "read";
                  "ParseFromString"; "tensorflow_graph_to_onnx_model"; "open"] →
     fs (final (conversion_cell k)) = fs k).
Proof.
  run_conversion; intros Hin; in_trace Hin.
  all: injection Hin as -> _; cbn [name_of].
  all: split; intros Hname; try discriminate Hname; try done.
  all: by in_trace Hname.
Qed.

End Further.

Section Further2.
Context {L : Libs}.

(** X7. Running the conversion cell again after it has ended normally ends
    normally again and leaves every file, mnist.onnx included, as the first
    run left it: the file is opened for writing anew, so nothing is
    appended. *)
Theorem conversion_cell_again k :
  res (conversion_cell k) = Ok () →
  res (conversion_cell (final (conversion_cell k))) = Ok ()
  ∧ fs (final (conversion_cell (final (conversion_cell k))))
    = fs (final (conversion_cell k)).
Proof.
  intros Hres.
  destruct (conversion_cell_normal k Hres)
    as (data & g & m & b & Hfile & Hparse & Hconv & Hopen & Hser & Hwrite).
  destruct (conversion_cell_success k Hres)
    as (data' & g' & m' & b' & Hfile' & Hparse' & Hconv' & Hser' & _ & Hfs & _).
  assert (b' = b) as -> by congruence.
  assert (fs (final (conversion_cell k)) !! "frozen_graph.pb" = Some data) as Hfile1.
  { by rewrite Hfs, lookup_insert_ne. }
  assert (res (conversion_cell (final (conversion_cell k))) = Ok ()) as Hres1.
  { by eapply conversion_cell_ends_normally. }
  split; [done|].
  destruct (conversion_cell_success _ Hres1)
    as (data2 & g2 & m2 & b2 & Hfile2 & Hparse2 & Hconv2 & Hser2 & _ & Hfs2 & _).
  assert (b2 = b) as -> by congruence.
  by rewrite Hfs2, Hfs, insert_insert_eq.
Qed.

Lemma cells_that_only_read_aux k :
  fs (final (sanity_cell k)) = fs k ∧ fs (final (inference_cell k)) = fs k.
Proof.
  split.
  - by destruct (sanity_cell_linear k) as (_ & _ & _ & ->).
  - by destruct (inference_cell_linear k) as (_ & _ & _ & ->).
Qed.

(** X8. The sanity cell and the inference cell write no file.  The sanity
    cell makes no file object and binds no name.  The inference cell leaves
    no file object either, unless [np.load] gave an NpzFile: that one keeps
    the image file open, and the cell, which fails at [reshape], does not
    close it. *)
Theorem cells_that_only_read k :
  fs (final (sanity_cell k)) = fs k
  ∧ files (final (sanity_cell k)) = files k
  ∧ ns (final (sanity_cell k)) = ns k
  ∧ fs (final (inference_cell k)) = fs k
  ∧ ((∀ p z, (np_load p, Ok (VNpz z)) ∉ trace (inference_cell k)) →
     files (final (inference_cell k)) = files k)
  ∧ (∀ p z, (np_load p, Ok (VNpz z)) ∈ trace (inference_cell k) →
     files (final (inference_cell k))
     = files k ++ [FObj "./assets/image.npz" "rb" false]).
Proof.
  split; [|split; [|split]].
  1-3: destruct (sanity_cell_trace k) as [[_ ->]|(v & _ & ->)]; [done|];
       by run_cell.
  run_inference.
  all: split; [done|]; split; [|intros ? ? Hin; by in_trace Hin].
  all: intros Hno; try done.
  exfalso. eapply Hno. elem_here.
Qed.

(** X9. No cell removes a file: a path that names a file before a cell runs
    names one after. *)
Theorem cells_remove_no_file (cell : py ()) k p :
  cell ∈ cells →
  is_Some (fs k !! p) → is_Some (fs (final (cell k)) !! p).
Proof.
  unfold cells. rewrite !elem_of_cons, elem_of_nil.
  intros [->|[->|[->|[]]]] Hp.
  - revert Hp. run_conversion; intros Hp;
      rewrite ?lookup_insert; repeat case_decide; eauto.
  - by destruct (cells_that_only_read_aux k) as (-> & _).
  - by destruct (cells_that_only_read_aux k) as (_ & ->).
Qed.

End Further2.

Section Further3.
Context {L : Libs}.

(** ** What is printed when a cell fails *)

(** X14. The print statement of the inference cell writes its first item
    before [np.argmax] is called: when [np.argmax] raises, the words are on
    the standard output without a label or a newline, and [softspace] is
    left set, so that the next item printed is preceded by a blank. *)
Theorem words_printed_before_argmax k o e :
  (np_argmax o, Raise e) ∈ trace (inference_cell k) →
  res (inference_cell k) = Raise e
  ∧ stdout (final (inference_cell k))
    = stdout k +:+ print_text (softspace k) (VStr "The digit is classified as ")
  ∧ softspace (final (inference_cell k)) = true.
Proof.
  run_inference; intros Hin; in_trace Hin.
  by injection Hin as _ ->.
Qed.

(** X15. When [np.load] gives an NpzFile, the object numpy makes of a zip
    archive, [img.reshape] raises AttributeError: the cell ends with it,
    [run] is not called and nothing is printed. *)
Theorem archive_has_no_reshape k p z :
  (np_load p, Ok (VNpz z)) ∈ trace (inference_cell k) →
  res (inference_cell k)
  = Raise (Exn "AttributeError" "object has no attribute 'reshape'")
  ∧ calls_named "run" (trace (inference_cell k)) = []
  ∧ stdout (final (inference_cell k)) = stdout k.
Proof.
  run_inference; intros Hin; in_trace Hin.
Qed.

(** X16. A sanity cell that fails, because [onnx_model] is not bound, is not
    a model, or has a graph without nodes, has printed nothing and has left
    the whole state as it was. *)
Theorem failed_sanity_cell_changes_nothing k e :
  res (sanity_cell k) = Raise e → final (sanity_cell k) = k.
Proof.
  destruct (sanity_cell_trace k) as [[_ ->]|(v & _ & ->)]; [done|].
  run_cell; intros Hres; by try discriminate Hres.
Qed.

(** ** One cell after another *)

(** X17. After a conversion cell that ended normally, [onnx_model] is bound
    to the model the conversion call returned, and it is of that model that
    the sanity cell takes the first node. *)
Theorem sanity_cell_reads_converted_model k :
  res (conversion_cell k) = Ok () →
  ∃ g m,
    (tensorflow_graph_to_onnx_model g (VStr "fc2/add") (VInt 6), Ok (VModel m))
      ∈ trace (conversion_cell k)
    ∧ ns (final (conversion_cell k)) !! "onnx_model" = Some (VModel m)
    ∧ calls_named "graph.node[]" (trace (sanity_cell (final (conversion_cell k))))
      = [graph_node_getitem (VModel m) (VInt 0)].
Proof.
  intros Hres.
  assert (∃ g m,
    (tensorflow_graph_to_onnx_model g (VStr "fc2/add") (VInt 6), Ok (VModel m))
      ∈ trace (conversion_cell k)
    ∧ ns (final (conversion_cell k)) !! "onnx_model" = Some (VModel m))
    as (g & m & Hin & Hns).
  { revert Hres. run_conversion; intros Hres; try discriminate Hres.
    eexists _, _. split; [elem_here|]. kernel_simpl.
    repeat (rewrite lookup_insert_ne by done). apply lookup_insert_eq. }
  exists g, m. split; [done|]. split; [done|].
  destruct (sanity_cell_trace (final (conversion_cell k)))
    as [[Hnone _]|(v & Hv & ->)]; [congruence|].
  replace v with (VModel m) by congruence.
  generalize (final (conversion_cell k)). intros k1. by run_cell.
Qed.

(** X18. The inference cell reads no name bound before it runs: the names
    it uses it has imported or assigned itself.  With any other names in the
    kernel it makes the same calls, with the same outcomes, ends the same
    way and prints the same. *)
Theorem inference_cell_ignores_names k (names : gmap string value) :
  trace (inference_cell (set_ns (λ _, names) k)) = trace (inference_cell k)
  ∧ res (inference_cell (set_ns (λ _, names) k)) = res (inference_cell k)
  ∧ stdout (final (inference_cell (set_ns (λ _, names) k)))
    = stdout (final (inference_cell k)).
Proof. by run_inference. Qed.

End Further3.

(** ** The snippet of the training script *)

Section TrainingProperties.
Context {L : Libs}.
Context (as_graph_def : bool → result GraphDef).
Context (GraphDef_SerializeToString : GraphDef → result (list byte)).

Lemma run_bind_lib_step {B} r (f : value → py B) k :
  (lib_step r ≫= f) k =
  match r with
  | Ok v => f v k
  | Raise e => Outcome [] k (Raise e)
  end.
Proof.
  unfold mbind, py_bind, lib_step. destruct r as [v|e]; [|done].
  by destruct (f v k).
Qed.

Ltac exec_snippet :=
  repeat first [progress exec | rewrite run_bind_lib_step; kernel_simpl].

Ltac run_snippet :=
  unfold training_snippet; rewrite run_with; kernel_simpl; exec_snippet;
  repeat (case_scrutinee; kernel_simpl; exec_snippet); finish.

Lemma close_last (l : list fobj) x :
  alter mark_closed (length l) (l ++ [x]) = l ++ [mark_closed x].
Proof. by rewrite <-(Nat.add_0_r (length l)), alter_app_r. Qed.

(** X19. However the snippet ends, it leaves no file object open that was
    not open before: the [with] statement closes graph.proto also when the
    graph cannot be had, serialized or written. *)
Theorem training_snippet_closes_file k :
  open_files (final (training_snippet as_graph_def GraphDef_SerializeToString k))
  = open_files k.
Proof.
  run_snippet; try done.
  all: unfold open_files; kernel_simpl; rewrite close_last, filter_app.
  all: replace (filter _ [_]) with (@nil fobj) by reflexivity; apply app_nil_r.
Qed.

(** X20. A snippet that ends normally has left in graph.proto the
    serialization of the graph definition made with [add_shapes=True]; one
    whose graph cannot be had or cannot be serialized, the file having been
    opened, ends with that exception and has left graph.proto empty, nothing
    having been written to it. *)
Theorem training_snippet_writes_graph k :
  (res (training_snippet as_graph_def GraphDef_SerializeToString k) = Ok () →
   ∃ g b, as_graph_def true = Ok g ∧ GraphDef_SerializeToString g = Ok b
     ∧ fs (final (training_snippet as_graph_def GraphDef_SerializeToString k))
       = <["graph.proto" := b]> (fs k))
  ∧ (∀ e, os_open_error "graph.proto" = None →
     as_graph_def true = Raise e
     ∨ (∃ g, as_graph_def true = Ok g ∧ GraphDef_SerializeToString g = Raise e) →
     res (training_snippet as_graph_def GraphDef_SerializeToString k) = Raise e
     ∧ calls_named "write"
         (trace (training_snippet as_graph_def GraphDef_SerializeToString k)) = []
     ∧ fs (final (training_snippet as_graph_def GraphDef_SerializeToString k))
       = <["graph.proto" := []]> (fs k)).
Proof.
  run_snippet.
  all: split; [intros Hres; try discriminate Hres
              | intros e' Hopen [Hg|(g' & Hg & Hs)]].
  all: try congruence; try done.
  all: try (eexists _, _; split; [done|]; split; [done|];
            by rewrite lookup_insert_eq, insert_insert_eq).
  all: repeat match goal with
       | H : ?x = Ok _, H' : ?x = Ok _ |- _ => rewrite H in H'; injection H' as <-
       end; try congruence.
  all: split; [congruence | done].
Qed.

End TrainingProperties.

(** ** The further properties at the sample instances *)

(** The conversion cell in the sample directory ends normally. *)
Lemma conversion_cell_closes_witness :
  open_files (final (conversion_cell (L := sample) fresh_kernel))
  = open_files (L := sample) fresh_kernel.
Proof.
  apply (conversion_cell_closes (L := sample) fresh_kernel).
  vm_compute. reflexivity.
Defined.

(** On a full disk [write] raises. *)
Lemma output_handle_leaks_witness :
  open_files (final (conversion_cell (L := disk_full) fresh_kernel))
  = open_files (L := disk_full) fresh_kernel ++ [FObj "mnist.onnx" "wb" false].
Proof.
  apply (output_handle_leaks (L := disk_full) fresh_kernel
           (write (VFile 1) (VBytes ["010"; "003"]%byte))
           (Exn "IOError" "[Errno 28] No space left on device")).
  - vm_compute. elem_here.
  - right. reflexivity.
Defined.

(** The conversion cell in the sample directory ends normally. *)
Lemma conversion_cell_normal_end_witness :
  (∃ data g m b,
     fs (L := sample) fresh_kernel !! "frozen_graph.pb" = Some data
     ∧ lib_GraphDef_ParseFromString (Libs := sample) lib_GraphDef data = Ok g
     ∧ lib_tensorflow_graph_to_onnx_model g "fc2/add" 6 = Ok m
     ∧ os_open_error (Libs := sample) "mnist.onnx" = None
     ∧ lib_SerializeToString m = Ok b
     ∧ os_write_error (Libs := sample) "mnist.onnx" b = None)
  ∧ name_of <$> (trace (conversion_cell (L := sample) fresh_kernel)).*1
    = conversion_script
  ∧ Forall (λ ev, is_ok ev.2 = true)
      (trace (conversion_cell (L := sample) fresh_kernel)).
Proof.
  apply (conversion_cell_normal_end (L := sample) fresh_kernel).
  vm_compute. reflexivity.
Defined.

(** Libraries whose [SerializeToString] raises: mnist.onnx, which held a
    model, is left empty. *)
Lemma failed_serialization_leaves_empty_file_witness :
  fs (final (conversion_cell (L := no_serialize_libs) refrozen_kernel))
  = <["mnist.onnx" := []]> (fs (L := no_serialize_libs) refrozen_kernel).
Proof.
  refine (proj1 (failed_serialization_leaves_empty_file (L := no_serialize_libs)
                   refrozen_kernel
                   (SerializeToString
                      (VModel (L := no_serialize_libs) ["010"; "003"]%byte))
                   (Exn "EncodeError" "Message is missing required fields") _) _).
  - vm_compute. elem_here.
  - reflexivity.
Defined.

(** The conversion cell twice in the sample directory. *)
Lemma conversion_cell_again_witness :
  res (conversion_cell (final (conversion_cell (L := sample) fresh_kernel))) = Ok ()
  ∧ fs (final (conversion_cell (final (conversion_cell (L := sample) fresh_kernel))))
    = fs (final (conversion_cell (L := sample) fresh_kernel)).
Proof.
  apply (conversion_cell_again (L := sample) fresh_kernel).
  vm_compute. reflexivity.
Defined.

(** The frozen graph is still there after the conversion cell. *)
Lemma cells_remove_no_file_witness :
  is_Some (fs (final (conversion_cell (L := sample) fresh_kernel))
             !! "frozen_graph.pb").
Proof.
  apply (cells_remove_no_file (L := sample) conversion_cell fresh_kernel).
  - unfold cells. apply list_elem_of_here.
  - vm_compute. eauto.
Defined.

(** The inference cell in a directory holding a model and an image. *)
Lemma inference_cell_prints_witness :
  ∃ (o : value (L := sample)) (z : Z),
    (np_argmax o, Ok (VInt z)) ∈ trace (inference_cell (L := sample) exported_kernel)
    ∧ stdout (final (inference_cell (L := sample) exported_kernel))
      = stdout (L := sample) exported_kernel
          +:+ print_text (L := sample) (softspace (L := sample) exported_kernel)
                (VStr "The digit is classified as ")
          +:+ " " +:+ pretty z +:+ newline.
Proof.
  apply (inference_cell_prints (L := sample) exported_kernel).
  vm_compute. reflexivity.
Defined.

(** The sample backend gives 7, and the recorded line is printed. *)
Lemma recorded_label_witness : (7 : Z) = 7.
Proof.
  apply (recorded_label (L := sample) exported_kernel (VOutputs (L := sample) 7) 7).
  - reflexivity.
  - vm_compute. reflexivity.
  - vm_compute. reflexivity.
  - vm_compute. elem_here.
Defined.

(** The sanity cell after the conversion cell. *)
Lemma sanity_cell_prints_witness :
  ∃ m n, ns converted_kernel !! "onnx_model" = Some (VModel m)
    ∧ py_index (lib_graph_node (Libs := sample) m) 0 = Some n
    ∧ stdout (final (sanity_cell converted_kernel))
      = stdout converted_kernel
          +:+ print_text (softspace converted_kernel) (VNode n) +:+ newline.
Proof.
  apply (sanity_cell_prints (L := sample) converted_kernel).
  vm_compute. reflexivity.
Defined.

(** The first node of the sample model has the recorded text. *)
Lemma recorded_node_witness :
  lib_NodeProto_str (Libs := sample) recorded_first_node = recorded_first_node.
Proof.
  apply (recorded_node (L := sample) converted_kernel ["010"; "003"]%byte).
  - reflexivity.
  - vm_compute. reflexivity.
  - vm_compute. reflexivity.
  - vm_compute. reflexivity.
Defined.

(** Libraries whose [np.argmax] raises. *)
Lemma words_printed_before_argmax_witness :
  res (inference_cell (L := no_argmax_libs) exported_kernel)
  = Raise (Exn "ValueError" "attempt to get argmax of an empty sequence")
  ∧ stdout (final (inference_cell (L := no_argmax_libs) exported_kernel))
    = stdout (L := no_argmax_libs) exported_kernel
        +:+ print_text (L := no_argmax_libs)
              (softspace (L := no_argmax_libs) exported_kernel)
              (VStr "The digit is classified as ")
  ∧ softspace (final (inference_cell (L := no_argmax_libs) exported_kernel)) = true.
Proof.
  apply (words_printed_before_argmax (L := no_argmax_libs) exported_kernel
           (VOutputs (L := no_argmax_libs) 7)).
  vm_compute. elem_here.
Defined.

(** Libraries whose [np.load] gives an NpzFile. *)
Lemma archive_has_no_reshape_witness :
  res (inference_cell (L := archive_libs) exported_kernel)
  = Raise (Exn "AttributeError" "object has no attribute 'reshape'")
  ∧ calls_named "run" (trace (inference_cell (L := archive_libs) exported_kernel)) = []
  ∧ stdout (final (inference_cell (L := archive_libs) exported_kernel))
    = stdout (L := archive_libs) exported_kernel.
Proof.
  apply (archive_has_no_reshape (L := archive_libs) exported_kernel
           (VStr "./assets/image.npz") ()).
  vm_compute. elem_here.
Defined.

(** The sanity cell in a fresh kernel raises NameError. *)
Lemma failed_sanity_cell_changes_nothing_witness :
  final (sanity_cell (L := sample) fresh_kernel) = fresh_kernel.
Proof.
  apply (failed_sanity_cell_changes_nothing (L := sample) fresh_kernel
           (Exn "NameError" "onnx_model")).
  vm_compute. reflexivity.
Defined.

(** The conversion cell, then the sanity cell, in the sample directory. *)
Lemma sanity_cell_reads_converted_model_witness :
  ∃ g m,
    (tensorflow_graph_to_onnx_model g (VStr "fc2/add") (VInt 6), Ok (VModel m))
      ∈ trace (conversion_cell (L := sample) fresh_kernel)
    ∧ ns (final (conversion_cell (L := sample) fresh_kernel)) !! "onnx_model"
      = Some (VModel m)
    ∧ calls_named "graph.node[]"
        (trace (sanity_cell (final (conversion_cell (L := sample) fresh_kernel))))
      = [graph_node_getitem (VModel m) (VInt 0)].
Proof.
  apply (sanity_cell_reads_converted_model (L := sample) fresh_kernel).
  vm_compute. reflexivity.
Defined.

(** The snippet in an empty directory, with a graph of one byte. *)
Lemma training_snippet_writes_graph_witness :
  ∃ g b, Ok (A := GraphDef (Libs := sample)) ["001"%byte] = Ok g
    ∧ Ok (A := list byte) g = Ok b
    ∧ fs (final (training_snippet (L := sample) (λ _, Ok ["001"%byte]) Ok empty_kernel))
      = <["graph.proto" := b]> (fs (L := sample) empty_kernel).
Proof.
  apply (proj1 (training_snippet_writes_graph (L := sample)
                  (λ _, Ok ["001"%byte]) Ok empty_kernel)).
  vm_compute. reflexivity.
Defined.
